(** * resume_demo: a shallow embedding of [app.py]

    The helper functions of the resume optimizer, written as Rocq functions
    over Python-like data, and the properties of its specification that concern
    them.  Python text ([str]) is a list of Unicode code points, byte strings
    are lists of bytes, a [dict] is a finite map, and a call that may raise
    returns a [PyResult]. *)

From stdpp Require Import gmap list strings pretty.

Open Scope N_scope.

(** ** Python values *)

(** A Python [str]: the sequence of its code points. *)
Abbreviation str := (list N).

(** A Python [bytes] object. *)
Abbreviation bytes := (list N).

(** The code points of an ASCII literal. *)
Fixpoint py (s : string) : str :=
  match s with
  | EmptyString => []
  | String a s' => Ascii.N_of_ascii a :: py s'
  end.

(** Code points the source and the libraries test for. *)
Definition LF : N := 10.
Definition CR : N := 13.
Definition SPACE : N := 32.
Definition DQUOTE : N := 34.
Definition BACKSLASH : N := 92.
Definition LBRACE : N := 123.
Definition RBRACE : N := 125.

(** An exception object: its class and what [str(e)] gives.  The exceptions of
    this model are the instances of [Exception], which is what the libraries
    called by the program raise (requests, bs4, openai, json, zipfile,
    pdfminer) and what the handlers of the program, all written
    [except Exception], handle. *)
Record exn := Exn { exc_class : string; exc_str : str }.

(** The outcome of a call: it returns a value or raises. *)
Inductive PyResult (A : Type) : Type :=
  | Returned (a : A)
  | Raised (e : exn).
Arguments Returned {A} a.
Arguments Raised {A} e.

#[global] Instance PyResult_ret : MRet PyResult := @Returned.
#[global] Instance PyResult_bind : MBind PyResult := λ A B f r,
  match r with
  | Returned a => f a
  | Raised e => Raised e
  end.

(** [try: body / except Exception as e: handler e]. *)
Definition try_except {A} (body : PyResult A) (handler : exn → PyResult A) : PyResult A :=
  match body with
  | Returned a => Returned a
  | Raised e => handler e
  end.

(** ** String methods *)

(** [str.isspace] on one code point, the test [str.strip] applies. *)
Definition isspace (c : N) : bool :=
  ((9 <=? c) && (c <=? 13)) || ((28 <=? c) && (c <=? 32))
  || (c =? 133) || (c =? 160) || (c =? 5760)
  || ((8192 <=? c) && (c <=? 8202))
  || (c =? 8232) || (c =? 8233) || (c =? 8239) || (c =? 8287) || (c =? 12288).

Fixpoint lstrip (s : str) : str :=
  match s with
  | [] => []
  | c :: s' => if isspace c then lstrip s' else s
  end.

Definition rstrip (s : str) : str := reverse (lstrip (reverse s)).

(** [s.strip()]. *)
Definition strip (s : str) : str := rstrip (lstrip s).

(** [s.startswith(p)]. *)
Fixpoint startswith (p s : str) : bool :=
  match p, s with
  | [], _ => true
  | a :: p', b :: s' => (a =? b) && startswith p' s'
  | _ :: _, [] => false
  end.

(** The line boundaries of [str.splitlines], [\r\n] apart. *)
Definition is_linebreak (c : N) : bool :=
  ((10 <=? c) && (c <=? 13)) || ((28 <=? c) && (c <=? 30))
  || (c =? 133) || (c =? 8232) || (c =? 8233).

(** [splitlines_from cur s]: the lines of [s], the first one prefixed with the
    characters already read, [cur], held in reverse. *)
Fixpoint splitlines_from (cur : str) (s : str) : list str :=
  match s with
  | [] => match cur with [] => [] | _ => [reverse cur] end
  | c :: s' =>
      if c =? CR then
        match s' with
        | d :: s'' =>
            if d =? LF then reverse cur :: splitlines_from [] s''
            else reverse cur :: splitlines_from [] s'
        | [] => reverse cur :: splitlines_from [] s'
        end
      else if is_linebreak c then reverse cur :: splitlines_from [] s'
      else splitlines_from (c :: cur) s'
  end.

(** [s.splitlines()]. *)
Definition splitlines (s : str) : list str := splitlines_from [] s.

(** [sep.join(parts)]. *)
Fixpoint join (sep : str) (parts : list str) : str :=
  match parts with
  | [] => []
  | [p] => p
  | p :: ps => p ++ sep ++ join sep ps
  end.

(** ** [re.search(r"\{[\s\S]*\}", text)]

    The pattern is a literal [{], a greedy star over a class that every
    character belongs to, and a literal [}].  The matcher below is the
    backtracking search of [re] specialised to this pattern. *)
Module Re.

(** [[\s\S]*\}] at the head of [s]: the star first tries to take one more
    character, and only when the rest cannot match is [}] tried here. *)
Fixpoint star_then_rbrace (s : str) : option str :=
  match s with
  | [] => None
  | c :: s' =>
      match star_then_rbrace s' with
      | Some m => Some (c :: m)
      | None => if c =? RBRACE then Some [c] else None
      end
  end.

(** The whole pattern anchored at the head of [s]. *)
Definition match_here (s : str) : option str :=
  match s with
  | [] => None
  | c :: s' =>
      if c =? LBRACE then (c ::.) <$> star_then_rbrace s' else None
  end.

(** [re.search]: the match at the leftmost position that has one;
    the result is [match.group(0)]. *)
Fixpoint search (s : str) : option str :=
  match match_here s with
  | Some m => Some m
  | None => match s with [] => None | _ :: s' => search s' end
  end.

End Re.

(** ** [json.loads]

    The decoder of the standard library as the program calls it: default
    options, text input.  A float is kept as the text of its literal, its
    binary value is not part of the model.  An error's message is kept without
    its position suffix. *)
Module Json.

#[warnings="-register-all"]
Inductive json : Type :=
  | JNull
  | JBool (b : bool)
  | JInt (z : Z)
  | JFloat (literal : str)
  | JString (s : str)
  | JArray (items : list json)
  | JObject (members : gmap str json).

Definition JSONDecodeError (msg : string) : exn := Exn "JSONDecodeError" (py msg).
Definition RecursionError : exn :=
  Exn "RecursionError" (py "maximum recursion depth exceeded").
Definition int_digits_ValueError : exn :=
  Exn "ValueError" (py "Exceeds the limit (4300 digits) for integer string conversion").

(** [sys.get_int_max_str_digits()], at its default. *)
Definition int_max_str_digits : nat := 4300.

(** The decoder's whitespace: space, tab, line feed, carriage return. *)
Definition is_ws (c : N) : bool := (c =? 32) || (c =? 9) || (c =? 10) || (c =? 13).

Fixpoint skip_ws (s : str) : str :=
  match s with
  | [] => []
  | c :: s' => if is_ws c then skip_ws s' else s
  end.

Definition is_digit (c : N) : bool := (48 <=? c) && (c <=? 57).

Definition hex_value (c : N) : option N :=
  if is_digit c then Some (c - 48)
  else if (97 <=? c) && (c <=? 102) then Some (c - 87)
  else if (65 <=? c) && (c <=? 70) then Some (c - 55)
  else None.

(** The four hex digits of a [\uXXXX] escape. *)
Definition decode_uXXXX (h1 h2 h3 h4 : N) : option N :=
  a ← hex_value h1; b ← hex_value h2; c ← hex_value h3; d ← hex_value h4;
  Some (((a * 16 + b) * 16 + c) * 16 + d).

(** The one-character escapes. *)
Definition backslash (c : N) : option N :=
  if c =? 34 then Some 34 else if c =? 92 then Some 92
  else if c =? 47 then Some 47 else if c =? 98 then Some 8
  else if c =? 102 then Some 12 else if c =? 110 then Some 10
  else if c =? 114 then Some 13 else if c =? 116 then Some 9
  else None.

Definition is_high_surrogate (c : N) : bool := (55296 <=? c) && (c <=? 56319).
Definition is_low_surrogate (c : N) : bool := (56320 <=? c) && (c <=? 57343).

(** [scanstring] in strict mode, called after the opening quote: the decoded
    text and the input left after the closing quote.  [acc] holds the
    characters decoded so far, in reverse. *)
Fixpoint scanstring (s : str) (acc : str) : PyResult (str * str) :=
  match s with
  | [] => Raised (JSONDecodeError "Unterminated string starting at")
  | c :: rest =>
      if c =? DQUOTE then Returned (reverse acc, rest)
      else if c =? BACKSLASH then
        match rest with
        | [] => Raised (JSONDecodeError "Unterminated string starting at")
        | e :: rest1 =>
            if e =? 117 then
              match rest1 with
              | h1 :: h2 :: h3 :: h4 :: rest2 =>
                  match decode_uXXXX h1 h2 h3 h4 with
                  | None => Raised (JSONDecodeError "Invalid \uXXXX escape")
                  | Some u =>
                      match rest2 with
                      | b :: v :: g1 :: g2 :: g3 :: g4 :: rest3 =>
                          match decode_uXXXX g1 g2 g3 g4 with
                          | Some u2 =>
                              if is_high_surrogate u && (b =? BACKSLASH) && (v =? 117)
                                 && is_low_surrogate u2
                              then scanstring rest3
                                     ((65536 + (u - 55296) * 1024 + (u2 - 56320)) :: acc)
                              else scanstring rest2 (u :: acc)
                          | None => scanstring rest2 (u :: acc)
                          end
                      | _ => scanstring rest2 (u :: acc)
                      end
                  end
              | _ => Raised (JSONDecodeError "Invalid \uXXXX escape")
              end
            else
              match backslash e with
              | Some d => scanstring rest1 (d :: acc)
              | None => Raised (JSONDecodeError "Invalid \escape")
              end
        end
      else if c <? 32 then Raised (JSONDecodeError "Invalid control character at")
      else scanstring rest (c :: acc)
  end.

Fixpoint span_digits (s : str) : str * str :=
  match s with
  | [] => ([], [])
  | c :: s' =>
      if is_digit c then let '(ds, r) := span_digits s' in (c :: ds, r)
      else ([], s)
  end.

(** What the number pattern matched: an optional minus sign and an integer
    part (a lone zero, or a nonzero digit and more digits), then optionally
    a point and digits, then optionally an exponent mark, a sign and
    digits. *)
Record number_match := NumberMatch {
  num_negative : bool;
  num_digits : str;
  num_frac : str;
  num_exp : str;
  num_rest : str
}.

Definition match_frac (s : str) : str * str :=
  match s with
  | p :: s' =>
      if p =? 46 then
        match span_digits s' with
        | ([], _) => ([], s)
        | (ds, r) => (p :: ds, r)
        end
      else ([], s)
  | [] => ([], s)
  end.

Definition match_exp (s : str) : str * str :=
  match s with
  | e :: s' =>
      if (e =? 101) || (e =? 69) then
        let '(sign, s'') :=
          match s' with
          | q :: t => if (q =? 43) || (q =? 45) then ([q], t) else ([], s')
          | [] => ([], s')
          end in
        match span_digits s'' with
        | ([], _) => ([], s)
        | (ds, r) => (e :: sign ++ ds, r)
        end
      else ([], s)
  | [] => ([], s)
  end.

Definition match_number (s : str) : option number_match :=
  let '(neg, s1) :=
    match s with
    | c :: s' => if c =? 45 then (true, s') else (false, s)
    | [] => (false, s)
    end in
  match s1 with
  | [] => None
  | c :: s2 =>
      let int_part :=
        if c =? 48 then Some ([c], s2)
        else if is_digit c then let '(ds, r) := span_digits s2 in Some (c :: ds, r)
        else None in
      '(ds, r) ← int_part;
      let '(frac, r1) := match_frac r in
      let '(exp, r2) := match_exp r1 in
      Some (NumberMatch neg ds frac exp r2)
  end.

Definition int_of_digits (ds : str) : Z :=
  foldl (λ acc c, acc * 10 + Z.of_N (c - 48))%Z 0%Z ds.

(** The value of a matched number: an [int] when there is neither fraction
    nor exponent, a [float] otherwise. *)
Definition number_value (m : number_match) : PyResult json :=
  let sign := if num_negative m then [45] else [] in
  match num_frac m, num_exp m with
  | [], [] =>
      if (int_max_str_digits <? length (num_digits m))%nat
      then Raised int_digits_ValueError
      else Returned (JInt (if num_negative m
                           then - int_of_digits (num_digits m)
                           else int_of_digits (num_digits m))%Z)
  | _, _ => Returned (JFloat (sign ++ num_digits m ++ num_frac m ++ num_exp m))
  end.

(** [strip_prefix p s]: what follows [p] in [s], when [s] starts with it. *)
Fixpoint strip_prefix (p s : str) : option str :=
  match p, s with
  | [], _ => Some s
  | a :: p', b :: s' => if a =? b then strip_prefix p' s' else None
  | _ :: _, [] => None
  end.

(** The constants and the numbers: every value that is not a string, an
    object or an array. *)
Definition scan_atom (s : str) : PyResult (json * str) :=
  match strip_prefix (py "null") s with
  | Some r => Returned (JNull, r)
  | None =>
  match strip_prefix (py "true") s with
  | Some r => Returned (JBool true, r)
  | None =>
  match strip_prefix (py "false") s with
  | Some r => Returned (JBool false, r)
  | None =>
  match strip_prefix (py "NaN") s with
  | Some r => Returned (JFloat (py "NaN"), r)
  | None =>
  match strip_prefix (py "Infinity") s with
  | Some r => Returned (JFloat (py "Infinity"), r)
  | None =>
  match strip_prefix (py "-Infinity") s with
  | Some r => Returned (JFloat (py "-Infinity"), r)
  | None =>
  match match_number s with
  | Some m => v ← number_value m; Returned (v, num_rest m)
  | None => Raised (JSONDecodeError "Expecting value")
  end end end end end end end.

Definition expecting_name : exn :=
  JSONDecodeError "Expecting property name enclosed in double quotes".

(** [scan_once] and the loops of the object and array decoders.  Each call
    spends one unit of [fuel]; a call made without any left raises. *)
Fixpoint scan_once (fuel : nat) (s : str) : PyResult (json * str) :=
  match fuel with
  | O => Raised RecursionError
  | S fuel =>
      match s with
      | [] => Raised (JSONDecodeError "Expecting value")
      | c :: rest =>
          if c =? DQUOTE then
            '(v, r) ← scanstring rest []; Returned (JString v, r)
          else if c =? LBRACE then
            match skip_ws rest with
            | d :: r =>
                if d =? RBRACE then Returned (JObject ∅, r)
                else if d =? DQUOTE then object_members fuel r ∅
                else Raised expecting_name
            | [] => Raised expecting_name
            end
          else if c =? 91 then
            match skip_ws rest with
            | d :: r =>
                if d =? 93 then Returned (JArray [], r)
                else array_items fuel (d :: r) []
            | [] => Raised (JSONDecodeError "Expecting value")
            end
          else scan_atom s
      end
  end
(** The members of an object from the first character of a key, after its
    opening quote; [pairs] holds the members read so far, a later one
    replacing an earlier one of the same key. *)
with object_members (fuel : nat) (s : str) (pairs : gmap str json)
    : PyResult (json * str) :=
  match fuel with
  | O => Raised RecursionError
  | S fuel =>
      '(key, r) ← scanstring s [];
      match skip_ws r with
      | c :: r1 =>
          if c =? 58 then
            '(value, r2) ← scan_once fuel (skip_ws r1);
            let pairs := <[key := value]> pairs in
            match skip_ws r2 with
            | d :: r3 =>
                if d =? RBRACE then Returned (JObject pairs, r3)
                else if d =? 44 then
                  match skip_ws r3 with
                  | q :: r4 =>
                      if q =? DQUOTE then object_members fuel r4 pairs
                      else Raised expecting_name
                  | [] => Raised expecting_name
                  end
                else Raised (JSONDecodeError "Expecting ',' delimiter")
            | [] => Raised (JSONDecodeError "Expecting ',' delimiter")
            end
          else Raised (JSONDecodeError "Expecting ':' delimiter")
      | [] => Raised (JSONDecodeError "Expecting ':' delimiter")
      end
  end
(** The items of an array from the first character of an item; [acc] holds
    the items read so far, in reverse. *)
with array_items (fuel : nat) (s : str) (acc : list json)
    : PyResult (json * str) :=
  match fuel with
  | O => Raised RecursionError
  | S fuel =>
      '(value, r) ← scan_once fuel s;
      match skip_ws r with
      | d :: r1 =>
          if d =? 93 then Returned (JArray (reverse (value :: acc)), r1)
          else if d =? 44 then array_items fuel (skip_ws r1) (value :: acc)
          else Raised (JSONDecodeError "Expecting ',' delimiter")
      | [] => Raised (JSONDecodeError "Expecting ',' delimiter")
      end
  end.

(** [json.loads(s)]: one value, whitespace allowed around it, nothing
    after.  The budget of calls, twice the length of [s] and one more, is
    never spent ([loads_no_recursion_error] below): the depth at which
    Python itself gives up on nested brackets depends on the interpreter's
    stack and is not part of the model. *)
Definition loads (s : str) : PyResult json :=
  if startswith [65279] s
  then Raised (JSONDecodeError "Unexpected UTF-8 BOM (decode using utf-8-sig)")
  else
    '(obj, r) ← scan_once (S (2 * length s)) (skip_ws s);
    match skip_ws r with
    | [] => Returned obj
    | _ :: _ => Raised (JSONDecodeError "Extra data")
    end.

End Json.
Export Json.

(** ** The response parser, [app.py] lines 113-124 *)

Definition changelog_fallback : str :=
  py "Could not parse changelog from model output.".
Definition suggestions_fallback : str :=
  py "Could not parse suggestions from model output.".

(** The mapping the parser returns when the [try] block did not return. *)
Definition fallback_mapping (output_text : str) : gmap str json :=
  {[ py "optimized_resume" := JString output_text;
     py "changelog" := JString changelog_fallback;
     py "suggestions" := JString suggestions_fallback ]}.

(** The body of the [try] block: [Some v] when it executed [return v], [None]
    when it fell through to the statement after the handler. *)
Definition parse_json_try (output_text : str) : PyResult (option json) :=
  match Re.search output_text with
  | Some group0 => v ← Json.loads group0; Returned (Some v)
  | None => Returned None
  end.

Definition parse_json_output (output_text : str) : PyResult json :=
  r ← try_except (parse_json_try output_text) (λ _, Returned None);
  match r with
  | Some v => Returned v
  | None => Returned (JObject (fallback_mapping output_text))
  end.

(** ** The text extractors, [app.py] lines 27-44 and 153-161 *)

(** [bytes.decode(errors="ignore")]: UTF-8, every byte that is not part of a
    well-formed sequence dropped.  A sequence cut short by the end of the
    input is dropped whole; an ill-formed one is dropped up to the byte that
    breaks it, and decoding resumes at that byte. *)
Module Utf8.

Definition is_cont (b : N) : bool := (128 <=? b) && (b <=? 191).

(** The second byte of a three-byte sequence: no overlong form after
    [0xE0], no surrogate after [0xED]. *)
Definition second_of_3 (b0 b1 : N) : bool :=
  is_cont b1 && negb (if b1 <? 160 then b0 =? 224 else b0 =? 237).

(** The second byte of a four-byte sequence: no overlong form after
    [0xF0], nothing above U+10FFFF after [0xF4]. *)
Definition second_of_4 (b0 b1 : N) : bool :=
  is_cont b1 && negb (if b1 <? 144 then b0 =? 240 else b0 =? 244).

Fixpoint decode_ignore (bs : bytes) : str :=
  match bs with
  | [] => []
  | b0 :: r0 =>
      if b0 <? 128 then b0 :: decode_ignore r0
      else if b0 <? 194 then decode_ignore r0
      else if b0 <? 224 then
        match r0 with
        | [] => []
        | b1 :: r1 =>
            if is_cont b1
            then ((b0 - 192) * 64 + (b1 - 128)) :: decode_ignore r1
            else decode_ignore r0
        end
      else if b0 <? 240 then
        match r0 with
        | [] => []
        | b1 :: r1 =>
            if second_of_3 b0 b1 then
              match r1 with
              | [] => []
              | b2 :: r2 =>
                  if is_cont b2
                  then (((b0 - 224) * 64 + (b1 - 128)) * 64 + (b2 - 128))
                         :: decode_ignore r2
                  else decode_ignore r1
              end
            else decode_ignore r0
        end
      else if b0 <? 245 then
        match r0 with
        | [] => []
        | b1 :: r1 =>
            if second_of_4 b0 b1 then
              match r1 with
              | [] => []
              | b2 :: r2 =>
                  if is_cont b2 then
                    match r2 with
                    | [] => []
                    | b3 :: r3 =>
                        if is_cont b3
                        then ((((b0 - 240) * 64 + (b1 - 128)) * 64 + (b2 - 128)) * 64
                                + (b3 - 128)) :: decode_ignore r3
                        else decode_ignore r2
                    end
                  else decode_ignore r1
              end
            else decode_ignore r0
        end
      else decode_ignore r0
  end.

End Utf8.

(** The files of the machine: the content of every path in use. *)
Abbreviation path := (list N).
Abbreviation filesystem := (gmap path bytes).

(** A computation that reads and changes the files and may raise; a raise
    keeps the files as they are at that point. *)
Definition IO (A : Type) : Type := filesystem → PyResult A * filesystem.

#[global] Instance IO_ret : MRet IO := λ A a fs, (Returned a, fs).
#[global] Instance IO_bind : MBind IO := λ A B f m fs,
  match m fs with
  | (Returned a, fs') => f a fs'
  | (Raised e, fs') => (Raised e, fs')
  end.

(** [try: body / finally: final]: [final] runs whatever [body] did, and then
    the outcome of [body] stands, unless [final] itself raised. *)
Definition try_finally {A} (body : IO A) (final : IO ()) : IO A := λ fs,
  let '(r, fs1) := body fs in
  match final fs1 with
  | (Returned _, fs2) => (r, fs2)
  | (Raised e, fs2) => (Raised e, fs2)
  end.

Definition FileNotFoundError (p : path) : exn :=
  Exn "FileNotFoundError" (py "[Errno 2] No such file or directory: " ++ p).

(** The [with tempfile.NamedTemporaryFile(delete=False, ...) as tmp] block of
    the DOCX extractor: a file under a name that no file has is created,
    [tmp.write] fills it, and leaving the block closes it and keeps it.  The
    result is [tmp.name]. *)
Definition NamedTemporaryFile_write (content : bytes) : IO path := λ fs,
  let name := fresh (dom fs) in
  let fs_created := <[name := []]> fs in
  (Returned name, <[name := content]> fs_created).

(** [os.remove]. *)
Definition os_remove (p : path) : IO () := λ fs,
  match fs !! p with
  | Some _ => (Returned (), delete p fs)
  | None => (Raised (FileNotFoundError p), fs)
  end.

Definition PDFSyntaxError : exn :=
  Exn "PDFSyntaxError" (py "No /Root object! - Is this really a PDF?").
Definition BadZipFile : exn := Exn "BadZipFile" (py "File is not a zip file").

(** The least size of a ZIP archive: its end-of-central-directory record. *)
Definition zip_min_size : nat := 22.

Section Extractors.

(** What pdfplumber finds in a file that is not empty: it raises, or gives
    the pages, each one standing for the outcome of its [extract_text()]
    ([None] when the page has no text). *)
Variable pdf_pages : bytes → PyResult (list (PyResult (option str))).

(** What docx2txt makes of an archive of at least [zip_min_size] bytes. *)
Variable docx_text : bytes → PyResult str.

(** [pdfplumber.open(BytesIO(file_bytes))] with its [pages]: an empty
    stream has no cross-reference table and no trailer, and raises. *)
Definition pdfplumber_open (file_bytes : bytes) : PyResult (list (PyResult (option str))) :=
  match file_bytes with
  | [] => Raised PDFSyntaxError
  | _ :: _ => pdf_pages file_bytes
  end.

(** [docx2txt.process(path)]: the file is opened with [zipfile.ZipFile],
    which raises on a file too short to hold the record every archive ends
    with.  The files are only read. *)
Definition docx2txt_process (p : path) : IO str := λ fs,
  match fs !! p with
  | None => (Raised (FileNotFoundError p), fs)
  | Some content =>
      (if (length content <? zip_min_size)%nat then Raised BadZipFile
       else docx_text content, fs)
  end.

(** The loop over [pdf.pages]: [text] is the list built so far. *)
Fixpoint pdf_pages_loop (pages : list (PyResult (option str))) (text : list str)
    : PyResult (list str) :=
  match pages with
  | [] => Returned text
  | page :: pages' =>
      t ← page;
      match t with
      | Some (c :: t') => pdf_pages_loop pages' (text ++ [c :: t'])
      | Some [] | None => pdf_pages_loop pages' text
      end
  end.

Definition extract_text_from_pdf (file_bytes : bytes) : PyResult str :=
  pages ← pdfplumber_open file_bytes;
  text ← pdf_pages_loop pages [];
  Returned (join [LF] text).

Definition extract_text_from_docx (file_bytes : bytes) : IO str :=
  tmp_path ← NamedTemporaryFile_write file_bytes;
  text ← try_finally (docx2txt_process tmp_path) (os_remove tmp_path);
  mret (match text with [] => [] | _ :: _ => text end).

(** [s.endswith(suffix)]. *)
Definition endswith (suffix s : str) : bool :=
  startswith (reverse suffix) (reverse s).

(** The dispatch on the name of the uploaded file, lines 156-161. *)
Definition extract_resume_text (name : str) (file_bytes : bytes) : IO str :=
  if endswith (py ".pdf") name then
    λ fs, (extract_text_from_pdf file_bytes, fs)
  else if endswith (py ".docx") name then extract_text_from_docx file_bytes
  else mret (Utf8.decode_ignore file_bytes).

End Extractors.

(** ** The web page text fetcher, [app.py] lines 46-62 *)

(** The tree BeautifulSoup builds. *)
Module Soup.

#[warnings="-register-all"]
Inductive node : Type :=
  | Tag (name : str) (contents : list node)
  | NavigableString (s : str)
  | Comment (s : str).  (* or a declaration, a doctype: a string that is not text *)

Definition is_tag_named (names : list str) (n : node) : bool :=
  match n with
  | Tag name _ => bool_decide (name ∈ names)
  | _ => false
  end.

(** [n.descendants]: the nodes below [n], in document order. *)
Fixpoint descendants (n : node) : list node :=
  match n with
  | Tag _ contents => flat_map (λ c, c :: descendants c) contents
  | _ => []
  end.

(** [n.find_all(names)] and [n.find(name)]. *)
Definition find_all (names : list str) (n : node) : list node :=
  filter (λ d, is_tag_named names d = true) (descendants n).
Definition find (name : str) (n : node) : option node :=
  head (find_all [name] n).

(** The tree after [t.decompose()] for every [t] of [n.find_all(names)]. *)
Fixpoint decompose_all (names : list str) (n : node) : node :=
  match n with
  | Tag name contents =>
      Tag name (flat_map (λ c, if is_tag_named names c then []
                               else [decompose_all names c]) contents)
  | _ => n
  end.

(** The strings [get_text] collects: the text nodes, comments apart. *)
Definition strings (n : node) : list str :=
  omap (λ d, match d with NavigableString s => Some s | _ => None end)
       (descendants n).

(** [n.get_text(separator)]. *)
Definition get_text (separator : str) (n : node) : str :=
  join separator (strings n).

(** [max(nodes, key=...)] on a list with a first element: the first of the
    elements whose key is greatest. *)
Definition max_by (key : node → nat) (first : node) (others : list node) : node :=
  foldl (λ best d, if (key best <? key d)%nat then d else best) first others.

End Soup.

(** What [requests.get] returns: the fields the program and [raise_for_status]
    read. *)
Record response := Response {
  status_code : Z;
  reason : str;
  response_url : str;
  response_text : str
}.

Definition HTTPError (kind : string) (r : response) : exn :=
  Exn "HTTPError"
      (py (pretty (status_code r)) ++ py " " ++ py kind ++ py " Error: " ++ reason r
         ++ py " for url: " ++ response_url r).

(** [resp.raise_for_status()]. *)
Definition raise_for_status (r : response) : PyResult () :=
  if bool_decide (400 ≤ status_code r < 500)%Z then Raised (HTTPError "Client" r)
  else if bool_decide (500 ≤ status_code r < 600)%Z then Raised (HTTPError "Server" r)
  else Returned ().

(** The network and the HTML parser, as the fetcher sees them. *)
Record web := Web {
  requests_get : str → PyResult response;
  BeautifulSoup : str → PyResult Soup.node
}.

Definition error_prefix : str := py "Error fetching URL: ".

Section Fetcher.

Variable w : web.

(** The [try] block. *)
Definition fetch_try (url : str) : PyResult str :=
  resp ← requests_get w url;
  _ ← raise_for_status resp;
  parsed ← BeautifulSoup w (response_text resp);
  let soup := Soup.decompose_all [py "script"; py "style"; py "noscript"] parsed in
  let text :=
    match Soup.find (py "main") soup with
    | Some main => Soup.get_text [LF] main
    | None =>
        let largest :=
          match Soup.find_all [py "div"] soup with
          | d :: divs => Soup.max_by (λ d, length (Soup.get_text [] d)) d divs
          | [] => soup
          end in
        Soup.get_text [LF] largest
    end in
  Returned (strip text).

Definition fetch_text_from_url (url : str) : PyResult str :=
  try_except (fetch_try url) (λ e, Returned (error_prefix ++ exc_str e)).

(** *** The fetch button, [app.py] lines 134-142 *)

(** What the handler shows or asks of Streamlit. *)
Inductive ui_event :=
  | st_error (msg : str)
  | st_success (msg : str)
  | st_rerun.

(** The handler: from whether the button was pressed, the URL field and the
    job description so far, the job description after it and the calls it
    made. *)
Definition fetch_button_handler (pressed : bool) (job_url job_description : str)
    : PyResult (str * list ui_event) :=
  if pressed && negb (bool_decide (job_url = [])) then
    text ← fetch_text_from_url job_url;
    if startswith (py "Error") text then
      Returned (job_description, [st_error text])
    else
      Returned (text, [st_success (py "Fetched job description successfully."); st_rerun])
  else Returned (job_description, []).

End Fetcher.

(** ** The model client, [app.py] lines 19-24 and 84-97 *)

Definition MODEL : str := py "gpt-4o-mini".
Definition TEMPERATURE : Qp := (pos_to_Qp 1 / pos_to_Qp 10)%Qp.
Definition MAX_OUTPUT_TOKENS : Z := 1600.

Record message := Message { role : str; content : str }.

(** The arguments of [client.responses.create]. *)
Record request := Request {
  req_model : str;
  req_input : list message;
  req_temperature : Qp;
  req_max_output_tokens : Z
}.

(** What the call returns, as far as the program reads it. *)
Record model_response := ModelResponse { output_text : str }.

Section ModelClient.

(** [client.responses.create]. *)
Variable responses_create : request → PyResult model_response.

Definition call_openai_chat (system_prompt user_prompt : str)
    : PyResult (option str * option str) :=
  try_except
    (response ←
       responses_create
         (Request MODEL
                  [Message (py "system") system_prompt; Message (py "user") user_prompt]
                  TEMPERATURE MAX_OUTPUT_TOKENS);
     Returned (Some (output_text response), None))
    (λ e, Returned (None, Some (exc_str e))).

End ModelClient.

(** ** The output renderer, [app.py] lines 99-111 *)

Inductive style := Normal | ListBullet.

Record paragraph := Paragraph { par_text : str; par_style : style }.

(** A [Document]: the paragraphs of its body.  A new one has none. *)
Abbreviation document := (list paragraph).

(** [doc.add_paragraph(text, style)], when it returns: the document has one
    more paragraph.  (The texts on which it raises are those of
    [add_paragraph_result], below.) *)
Definition add_paragraph (doc : document) (text : str) (st : style) : document :=
  doc ++ [Paragraph text st].

(** The body of the [for] loop. *)
Definition render_line (doc : document) (line : str) : document :=
  if bool_decide (strip line = []) then add_paragraph doc [] Normal
  else if startswith (py "- ") (strip line)
       then add_paragraph doc (drop 2 (strip line)) ListBullet
  else add_paragraph doc line Normal.

(** The document that [create_docx_from_text] saves into the buffer it
    returns, in a call where no [add_paragraph] raises. *)
Definition create_docx_from_text (text : str) : document :=
  foldl render_line [] (splitlines text).

(** ** Statements of the specification, and the inputs of its examples *)

(** An ASCII literal between double quotes. *)
Definition quoted (s : string) : str := [DQUOTE] ++ py s ++ [DQUOTE].

(** The model output of the parser's first example: an object of three
    members, with no space in it. *)
Definition c1_text : str :=
  py "{" ++ quoted "optimized_resume" ++ py ":" ++ quoted "A" ++ py ","
    ++ quoted "changelog" ++ py ":" ++ quoted "B" ++ py ","
    ++ quoted "suggestions" ++ py ":" ++ quoted "C" ++ py "}".

(** A model output with one member only. *)
Definition one_member_text : str :=
  py "{" ++ quoted "optimized_resume" ++ py ":" ++ quoted "A" ++ py "}".

(** Parsing fails: the pattern matches nowhere, or [json.loads] raises on what
    it matched. *)
Definition parsing_fails (output_text : str) : Prop :=
  Re.search output_text = None
  ∨ ∃ group0 e, Re.search output_text = Some group0 ∧ Json.loads group0 = Raised e.

(** The three keys of an optimization result. *)
Definition result_keys : gset str :=
  {[ py "optimized_resume"; py "changelog"; py "suggestions" ]}.

(** The result is a mapping of exactly the three keys. *)
Definition has_exactly_three_keys (r : PyResult json) : Prop :=
  ∃ m, r = Returned (JObject m) ∧ dom m = result_keys.

(** The position of the first [c] of [s], as [s.find(c)] gives it. *)
Fixpoint first_index (c : N) (s : str) : option nat :=
  match s with
  | [] => None
  | x :: s' => if x =? c then Some 0%nat else S <$> first_index c s'
  end.

(** The position of the last [c] of [s], as [s.rfind(c)] gives it. *)
Fixpoint last_index (c : N) (s : str) : option nat :=
  match s with
  | [] => None
  | x :: s' =>
      match last_index c s' with
      | Some j => Some (S j)
      | None => if x =? c then Some 0%nat else None
      end
  end.

(** [s[i:j]]. *)
Definition slice (i j : nat) (s : str) : str := take (j - i) (drop i s).


(** The paragraph the loop body of the renderer adds for a line. *)
Definition paragraph_of_line (line : str) : paragraph :=
  if bool_decide (strip line = []) then Paragraph [] Normal
  else if startswith (py "- ") (strip line)
       then Paragraph (drop 2 (strip line)) ListBullet
  else Paragraph line Normal.


(** A server that answers every request with 404. *)
Definition web_404 : web :=
  Web (λ url, Returned (Response 404 (py "Not Found") url []))
      (λ _, Returned (Soup.Tag (py "[document]") [])).

(** A server whose page is a posting that begins with the word Error, and the
    tree the parser builds from it. *)
Definition error_page_html : str := py "<main>Error budget analyst wanted</main>".
Definition web_error_page : web :=
  Web (λ url, Returned (Response 200 (py "OK") url error_page_html))
      (λ _, Returned
              (Soup.Tag (py "[document]")
                 [Soup.Tag (py "main")
                    [Soup.NavigableString (py "Error budget analyst wanted")]])).

(** ** The prompt builder, [app.py] lines 64-82 *)

Definition build_system_prompt : str :=
  py "You are a professional resume optimization assistant. "
  ++ py "Rewrite resumes to align with job descriptions truthfully and effectively. "
  ++ py "Rules:" ++ [LF]
  ++ py "- Never invent roles, dates, or certifications." ++ [LF]
  ++ py "- Add or rephrase skills from the job posting only if consistent with the candidate"
  ++ [8217] ++ py "s background." ++ [LF]
  ++ py "- Format output in clear, ATS-friendly plain text with section headers." ++ [LF]
  ++ py "- Provide three sections in JSON: optimized_resume, changelog, and suggestions."
  ++ [LF]
  ++ py "- The resume must look polished, keyword-rich, and factual.".

Definition build_user_prompt (resume_text job_text : str) : str :=
  py "Candidate Resume:" ++ [LF] ++ resume_text ++ [LF; LF]
  ++ py "Job Description:" ++ [LF] ++ job_text ++ [LF; LF]
  ++ py "Rewrite the resume to align with the job posting as per the system rules above. "
  ++ py "If key skills are missing, list them only in 'suggestions', not inside the resume.".

(** ** The text export, [app.py] line 195 *)

Definition UnicodeEncodeError : exn :=
  Exn "UnicodeEncodeError" (py "'utf-8' codec can't encode character: surrogates not allowed").

(** A Unicode scalar value: a code point that is not a surrogate. *)
Definition is_scalar (c : N) : bool :=
  (c <? 1114112) && negb ((55296 <=? c) && (c <=? 57343)).

(** The bytes of one character in UTF-8; a surrogate has none.  (Nor has a
    number past U+10FFFF, which no [str] holds.) *)
Definition encode_char (c : N) : option bytes :=
  if c <? 128 then Some [c]
  else if c <? 2048 then Some [192 + c / 64; 128 + c mod 64]
  else if c <? 65536 then
    if (55296 <=? c) && (c <=? 57343) then None
    else Some [224 + c / 4096; 128 + (c / 64) mod 64; 128 + c mod 64]
  else if c <? 1114112 then
    Some [240 + c / 262144; 128 + (c / 4096) mod 64; 128 + (c / 64) mod 64; 128 + c mod 64]
  else None.

(** [s.encode("utf-8")]. *)
Fixpoint encode_utf8 (s : str) : PyResult bytes :=
  match s with
  | [] => Returned []
  | c :: s' =>
      match encode_char c with
      | Some bs => rest ← encode_utf8 s'; Returned (bs ++ rest)
      | None => Raised UnicodeEncodeError
      end
  end.

(** ** The output renderer and the texts the document library refuses

    [doc.add_paragraph(text, style)] puts the text into a run of the new
    paragraph.  The run makes an element of every tab, line feed and carriage
    return, and hands the characters between them to lxml as the text of an
    element; lxml takes only what an XML document can hold. *)

(** A character that XML 1.0 allows: tab, line feed, carriage return, and
    from the space on every scalar value but U+FFFE and U+FFFF. *)
Definition xml_char (c : N) : bool :=
  (c =? 9) || (c =? LF) || (c =? CR)
  || ((32 <=? c) && is_scalar c && negb ((c =? 65534) || (c =? 65535))).

Definition ValueError : exn :=
  Exn "ValueError"
    (py "All strings must be XML compatible: Unicode or ASCII, no NULL bytes or control characters").

(** lxml on the text of an element: the string is encoded, which raises on a
    surrogate, and a string with a character that XML does not allow is
    refused. *)
Definition set_text (text : str) : PyResult () :=
  _ ← encode_utf8 text;
  if forallb xml_char text then Returned () else Raised ValueError.

(** The characters held back, [bfr] (in reverse), become the text of one
    element, when there are any. *)
Definition flush (bfr : str) : PyResult () :=
  match bfr with
  | [] => Returned ()
  | _ :: _ => set_text (reverse bfr)
  end.

(** The run on its text, character by character. *)
Fixpoint add_text (bfr text : str) : PyResult () :=
  match text with
  | [] => flush bfr
  | c :: text' =>
      if (c =? 9) || (c =? LF) || (c =? CR) then _ ← flush bfr; add_text [] text'
      else add_text (c :: bfr) text'
  end.

(** [doc.add_paragraph(text, style)]: the document with one more paragraph,
    or the exception of the text. *)
Definition add_paragraph_result (doc : document) (text : str) (st : style)
    : PyResult document :=
  _ ← add_text [] text; Returned (add_paragraph doc text st).

(** The body of the [for] loop. *)
Definition render_line_result (doc : document) (line : str) : PyResult document :=
  if bool_decide (strip line = []) then add_paragraph_result doc [] Normal
  else if startswith (py "- ") (strip line)
       then add_paragraph_result doc (drop 2 (strip line)) ListBullet
  else add_paragraph_result doc line Normal.

(** The loop: the first line that raises ends it. *)
Fixpoint render_lines_result (doc : document) (lines : list str) : PyResult document :=
  match lines with
  | [] => Returned doc
  | line :: lines' =>
      doc' ← render_line_result doc line; render_lines_result doc' lines'
  end.

(** [create_docx_from_text(text)], lines 99-111: the document saved into the
    buffer that is returned, or the exception of the first paragraph the
    library refuses. *)
Definition create_docx_from_text_result (text : str) : PyResult document :=
  render_lines_result [] (splitlines text).

(** The text ends with a line boundary. *)
Definition ends_with_linebreak (s : str) : bool :=
  match last s with
  | Some c => is_linebreak c
  | None => false
  end.

(** ** The script, [app.py] lines 134-191 *)

(** What the widgets hold when a run starts: the uploaded file (its name and
    content), the text area, the URL field, and whether the run was started
    by the fetch button. *)
Record widgets := Widgets {
  resume_file : option (str * bytes);
  job_description_area : str;
  job_url_input : str;
  fetch_pressed : bool
}.

(** What a run puts on the page, in order.  ([st.spinner] shows only while
    its block runs and leaves nothing.) *)
Inductive script_event :=
  | ui (e : ui_event)
  | st_info (msg : str)
  | st_warning (msg : str)
  | st_subheader (msg : str)
  | st_markdown (msg : str)
  | st_code (body : json)
  | st_write (body : json).

(** How a run ends: at [st.stop()], at [st.rerun()], with an exception that
    nothing handles, or with the results on the page (the download buttons,
    lines 193-211, come next). *)
Inductive run_end :=
  | Stopped
  | Rerun
  | Crashed (e : exn)
  | Rendered.

#[global] Instance ui_event_eq_dec : EqDecision ui_event.
Proof. solve_decision. Defined.

Definition TypeError : exn :=
  Exn "TypeError" (py "expected string or bytes-like object, got 'NoneType'").
Definition AttributeError : exn :=
  Exn "AttributeError" (py "object has no attribute 'get'").

(** [parse_json_output] on the first component of what the client returned,
    which is [None] when the call raised: [re.search] then raises inside the
    [try] block, and the fallback holds [None]. *)
Definition parse_json_output_object (output : option str) : PyResult json :=
  match output with
  | Some output_text => parse_json_output output_text
  | None =>
      r ← try_except (Raised TypeError) (λ _, Returned None);
      match r with
      | Some v => Returned v
      | None =>
          Returned (JObject {[ py "optimized_resume" := JNull;
                               py "changelog" := JString changelog_fallback;
                               py "suggestions" := JString suggestions_fallback ]})
      end
  end.

(** [d.get(key, "")]. *)
Definition dict_get (d : gmap str json) (key : str) : json :=
  default (JString []) (d !! key).

(** A string without surrogates: what [st.code] and [st.write] show as it
    is. *)
Definition plain_string (v : json) : bool :=
  match v with
  | JString s => forallb is_scalar s
  | _ => false
  end.

Section Script.

Variable w : web.
Variable pdf_pages : bytes → PyResult (list (PyResult (option str))).
Variable docx_text : bytes → PyResult str.
Variable responses_create : request → PyResult model_response.

(** Lines 163-191: the model call, the parse and the display.  The display
    is that of a run in which Streamlit takes every string it is given, as
    it does every string without a surrogate; on a string with one,
    [st.code] and [st.write] raise instead. *)
Definition optimize (resume_text job_description : str) : list script_event * run_end :=
  let shown := [st_subheader (py "Optimizing your resume...")] in
  match call_openai_chat responses_create build_system_prompt
          (build_user_prompt resume_text job_description) with
  | Raised e => (shown, Crashed e)
  | Returned (output, err) =>
      match err with
      | Some (c :: msg) =>
          (shown ++ [ui (st_error (py "OpenAI API error: " ++ c :: msg))], Stopped)
      | Some [] | None =>
          match parse_json_output_object output with
          | Raised e => (shown, Crashed e)
          | Returned (JObject parsed_output) =>
              (shown ++
                 [ui (st_success (py "Resume optimization complete!"));
                  st_markdown (py "### Optimized Resume (ATS-Friendly)");
                  st_code (dict_get parsed_output (py "optimized_resume"));
                  st_markdown (py "### Changelog");
                  st_write (dict_get parsed_output (py "changelog"));
                  st_markdown (py "### Suggestions for Improvement");
                  st_write (dict_get parsed_output (py "suggestions"))],
               Rendered)
          | Returned _ => (shown, Crashed AttributeError)
          end
      end
  end.

(** Lines 134-191: the fetch button, the two checks, the extraction, and
    [optimize].  The result is what was shown, how the run ended, and the
    files after it. *)
Definition script (wd : widgets) (fs : filesystem)
    : list script_event * run_end * filesystem :=
  match fetch_button_handler w (fetch_pressed wd) (job_url_input wd)
          (job_description_area wd) with
  | Raised e => ([], Crashed e, fs)
  | Returned (job_description, fetch_events) =>
      let shown := ui <$> fetch_events in
      if bool_decide (st_rerun ∈ fetch_events) then (shown, Rerun, fs)
      else
        match resume_file wd with
        | None =>
            (shown ++ [st_info (py "Please upload a resume to continue.")], Stopped, fs)
        | Some (name, file_bytes) =>
            if bool_decide (strip job_description = []) then
              (shown ++ [st_warning (py "Please provide a job description or a valid URL.")],
               Stopped, fs)
            else
              match extract_resume_text pdf_pages docx_text name file_bytes fs with
              | (Raised e, fs') => (shown, Crashed e, fs')
              | (Returned resume_text, fs') =>
                  let '(results, e) := optimize resume_text job_description in
                  (shown ++ results, e, fs')
              end
        end
  end.

End Script.

(** ** The fetcher on a page it received *)

(** Lines 51-60 on the tree the parser built: the text the fetcher
    returns. *)
Definition page_text (parsed : Soup.node) : str :=
  let soup := Soup.decompose_all [py "script"; py "style"; py "noscript"] parsed in
  let text :=
    match Soup.find (py "main") soup with
    | Some main => Soup.get_text [LF] main
    | None =>
        let largest :=
          match Soup.find_all [py "div"] soup with
          | d :: divs => Soup.max_by (λ d, length (Soup.get_text [] d)) d divs
          | [] => soup
          end in
        Soup.get_text [LF] largest
    end in
  strip text.

(** The request for [url] was answered with a status that
    [raise_for_status] lets through, and the parser built [parsed] from the
    body. *)
Definition fetched (w : web) (url : str) (parsed : Soup.node) : Prop :=
  ∃ resp, requests_get w url = Returned resp
        ∧ raise_for_status resp = Returned ()
        ∧ BeautifulSoup w (response_text resp) = Returned parsed.

(** A server that answers every request with the same tree. *)
Definition web_serving (parsed : Soup.node) : web :=
  Web (λ url, Returned (Response 200 (py "OK") url []))
      (λ _, Returned parsed).

(** A page with a script, a short division and two longer ones of the same
    length. *)
Definition three_div_page : Soup.node :=
  Soup.Tag (py "[document]")
    [Soup.Tag (py "script") [Soup.NavigableString (py "var tracking = 1;")];
     Soup.Tag (py "div") [Soup.NavigableString (py "Menu")];
     Soup.Tag (py "div") [Soup.NavigableString (py "  Data engineer, Python  ")];
     Soup.Tag (py "div") [Soup.NavigableString (py "  Cookie notice: accept  ")]].

(** ** Inputs of the examples of the properties below *)

(** A model answer inside a Markdown fence, with a sentence before it. *)
Definition fenced_text : str :=
  py "Here is the result:" ++ [LF] ++ py "```json" ++ [LF] ++ c1_text ++ [LF] ++ py "```".

(** A client whose call fails with a message, one whose call fails with an
    exception that has no message, and one that answers with a given text. *)
Definition failing_client (message : str) : request → PyResult model_response :=
  λ _, Raised (Exn "APIConnectionError" message).
Definition answering_client (text : str) : request → PyResult model_response :=
  λ _, Returned (ModelResponse text).

(** The text of a page as the PDF loop keeps it: [None] and the empty
    string fail the test [if t:]. *)
Definition page_text_kept (t : option str) : option str :=
  match t with
  | Some (c :: t') => Some (c :: t')
  | Some [] | None => None
  end.

(** The request the script sends for a resume and a job description. *)
Definition script_request (resume_text job_description : str) : request :=
  Request MODEL
    [Message (py "system") build_system_prompt;
     Message (py "user") (build_user_prompt resume_text job_description)]
    TEMPERATURE MAX_OUTPUT_TOKENS.

(** The same widgets in a run that the fetch button did not start. *)
Definition without_fetch (wd : widgets) : widgets :=
  Widgets (resume_file wd) (job_description_area wd) (job_url_input wd) false.

(** What [optimize] shows when it reaches the display, for the three fields. *)
Definition results_page (optimized_resume changelog suggestions : json)
    : list script_event :=
  [st_subheader (py "Optimizing your resume...");
   ui (st_success (py "Resume optimization complete!"));
   st_markdown (py "### Optimized Resume (ATS-Friendly)");
   st_code optimized_resume;
   st_markdown (py "### Changelog");
   st_write changelog;
   st_markdown (py "### Suggestions for Improvement");
   st_write suggestions].

(** The parts of [fenced_text]: what comes before the object, what is
    between its braces, and what comes after. *)
Definition fence_open : str :=
  py "Here is the result:" ++ [LF] ++ py "```json" ++ [LF].
Definition c1_body : str :=
  quoted "optimized_resume" ++ py ":" ++ quoted "A" ++ py ","
    ++ quoted "changelog" ++ py ":" ++ quoted "B" ++ py ","
    ++ quoted "suggestions" ++ py ":" ++ quoted "C".
Definition fence_close : str := [LF] ++ py "```".

(** A plain-text upload with a pasted job description, the fetch button not
    pressed. *)
Definition text_upload : widgets :=
  Widgets (Some (py "cv.txt", py "Data engineer, 5 years")) (py "Python developer") [] false.

(** An empty PDF upload. *)
Definition empty_pdf_upload : widgets :=
  Widgets (Some (py "cv.pdf", [])) (py "Python developer") [] false.

(** The same upload in a run that the fetch button started, with a URL. *)
Definition empty_pdf_fetching : widgets :=
  Widgets (Some (py "cv.pdf", [])) (py "Python developer")
          (py "https://example.com/job") true.

(** Libraries that find no page and no text in any file they can open. *)
Definition no_pages : bytes → PyResult (list (PyResult (option str))) := λ _, Returned [].
Definition no_text : bytes → PyResult str := λ _, Returned [].

(** * Properties *)

(** ** The string methods and the codecs on known values *)

Example splitlines_crlf :
  splitlines (py "a" ++ [CR; LF] ++ py "b" ++ [LF]) = [py "a"; py "b"].
Proof. reflexivity. Qed.

Example splitlines_blank_lines :
  splitlines [LF] = [[]] ∧ splitlines [] = []
  ∧ splitlines (py "a" ++ [LF; LF] ++ py "b") = [py "a"; []; py "b"].
Proof. repeat split; reflexivity. Qed.

Example strip_both_sides : strip ([9; 32] ++ py "- x" ++ [32; 10]) = py "- x".
Proof. reflexivity. Qed.

(** Two, three and four byte sequences decode; a stray byte and a sequence
    cut short by the end of the input are dropped. *)
Example decode_ignore_mixed :
  Utf8.decode_ignore [72; 195; 169; 226; 130; 172; 240; 159; 152; 128; 255; 226; 130]
  = [72; 233; 8364; 128512].
Proof. reflexivity. Qed.

Example loads_nested :
  Json.loads (py "[1, 2.5e3, -0, true, null, {}, [[]]]")
  = Returned (JArray [JInt 1; JFloat (py "2.5e3"); JInt 0; JBool true; JNull;
                      JObject ∅; JArray [JArray []]]).
Proof. vm_compute. reflexivity. Qed.

Example loads_extra_data :
  Json.loads (py "{} {}") = Raised (JSONDecodeError "Extra data").
Proof. vm_compute. reflexivity. Qed.

(** ** The pattern search *)

Lemma first_index_Some c s i :
  first_index c s = Some i ↔ s !! i = Some c ∧ ∀ k, (k < i)%nat → s !! k ≠ Some c.
Proof.
  revert i. induction s as [|x s' IH]; intros i; simpl.
  - split; [done|]. intros [H _]. done.
  - destruct (N.eqb_spec x c) as [->|Hne].
    + split.
      * intros [= <-]. split; [done|]. intros k Hk. lia.
      * intros [Hi Hleast]. destruct i as [|i]; [done|].
        exfalso. apply (Hleast 0%nat); [lia|done].
    + split.
      * destruct (first_index c s') as [i'|] eqn:Hf; simpl; [|done].
        intros [= <-]. destruct (proj1 (IH i') eq_refl) as [Hi Hleast]. split; [done|].
        intros [|k] Hk; simpl; [congruence|]. apply Hleast. lia.
      * intros [Hi Hleast]. destruct i as [|i]; simpl in Hi; [congruence|].
        assert (first_index c s' = Some i) as ->; [|done].
        apply IH. split; [done|]. intros k Hk. apply (Hleast (S k)). lia.
Qed.

Lemma last_index_Some c s j :
  last_index c s = Some j ↔ s !! j = Some c ∧ ∀ k, (j < k)%nat → s !! k ≠ Some c.
Proof.
  revert j. induction s as [|x s' IH]; intros j; simpl.
  - split; [done|]. intros [H _]. done.
  - destruct (last_index c s') as [j'|] eqn:Hl.
    + pose proof (proj1 (IH j') eq_refl) as [Hj' Hlast]. split.
      * intros [= <-]. split; [done|]. intros [|k] Hk; [lia|]. simpl. apply Hlast. lia.
      * intros [Hj Hgreatest]. f_equal.
        destruct j as [|j].
        { exfalso. apply (Hgreatest (S j')); [lia|done]. }
        simpl in Hj. 
        destruct (decide (j < j')%nat).
        { exfalso. apply (Hgreatest (S j')); [lia|done]. }
        destruct (decide (j' < j)%nat).
        { exfalso. by apply (Hlast j). }
        lia.
    + assert (Hnone : ∀ k, s' !! k ≠ Some c).
      { intros k Hk. 
        assert (∃ j, last_index c s' = Some j) as [? ?]; [|congruence].
        clear IH Hl. revert k Hk. induction s' as [|y s'' IH']; intros k Hk; [done|].
        simpl. destruct k as [|k]; simpl in Hk.
        - destruct (last_index c s''); [eauto|]. injection Hk as ->. rewrite N.eqb_refl. eauto.
        - destruct (IH' k Hk) as [j' ->]. eauto. }
      destruct (N.eqb_spec x c) as [->|Hne].
      * split.
        -- intros [= <-]. split; [done|]. intros [|k] Hk; [lia|]. simpl. apply Hnone.
        -- intros [Hj _]. destruct j as [|j]; [done|]. simpl in Hj. by apply Hnone in Hj.
      * split; [done|]. intros [Hj _]. destruct j as [|j]; simpl in Hj; [congruence|].
        by apply Hnone in Hj.
Qed.

Lemma star_then_rbrace_last s :
  Re.star_then_rbrace s = (λ j, take (S j) s) <$> last_index RBRACE s.
Proof.
  induction s as [|c s' IH]; simpl; [done|].
  rewrite IH. destruct (last_index RBRACE s') as [j|]; simpl; [done|].
  by destruct (c =? RBRACE).
Qed.

Lemma search_no_rbrace s : last_index RBRACE s = None → Re.search s = None.
Proof.
  induction s as [|c s' IH]; [done|].
  cbn [last_index]. destruct (last_index RBRACE s') eqn:Hl; [done|]. intros _.
  cbn [Re.search Re.match_here]. rewrite star_then_rbrace_last, Hl. simpl.
  destruct (c =? LBRACE); by apply IH.
Qed.

Lemma search_first_last s :
  Re.search s =
    i ← first_index LBRACE s;
    j ← last_index RBRACE (drop (S i) s);
    Some (LBRACE :: take (S j) (drop (S i) s)).
Proof.
  induction s as [|c s' IH]; [done|].
  cbn [Re.search Re.match_here first_index].
  destruct (N.eqb_spec c LBRACE) as [->|Hne].
  - rewrite star_then_rbrace_last. simpl. rewrite drop_0.
    destruct (last_index RBRACE s') as [j|] eqn:Hl; simpl; [done|].
    by apply search_no_rbrace.
  - rewrite IH. destruct (first_index LBRACE s') as [i|]; simpl; done.
Qed.

Lemma last_index_drop c s l n :
  last_index c s = Some l → (n ≤ l)%nat → last_index c (drop n s) = Some (l - n)%nat.
Proof.
  intros Hl Hn. apply last_index_Some. apply last_index_Some in Hl as [Hl Hlast].
  split.
  - rewrite lookup_drop. replace (n + (l - n))%nat with l by lia. done.
  - intros k Hk. rewrite lookup_drop. apply Hlast. lia.
Qed.

Lemma first_index_is_Some c s i : s !! i = Some c → ∃ f, first_index c s = Some f ∧ (f ≤ i)%nat.
Proof.
  revert i. induction s as [|x s' IH]; intros i Hi; [done|].
  simpl. destruct (N.eqb_spec x c) as [->|Hne].
  - exists 0%nat. split; [done|lia].
  - destruct i as [|i]; simpl in Hi; [congruence|].
    destruct (IH i Hi) as (f & -> & Hf). exists (S f). split; [done|lia].
Qed.

Lemma last_index_is_Some c s j : s !! j = Some c → ∃ l, last_index c s = Some l ∧ (j ≤ l)%nat.
Proof.
  revert j. induction s as [|x s' IH]; intros j Hj; [done|].
  simpl. destruct j as [|j]; simpl in Hj.
  - injection Hj as ->. destruct (last_index c s') as [l|]; [|rewrite N.eqb_refl]; eexists; (split; [done|lia]).
  - destruct (IH j Hj) as (l & -> & Hl). exists (S l). split; [done|lia].
Qed.


(** ** The decoder's budget of calls *)

Lemma skip_ws_length s : (length (Json.skip_ws s) ≤ length s)%nat.
Proof. induction s as [|c s IH]; simpl; [lia|]. destruct (Json.is_ws c); simpl; lia. Qed.

Lemma skip_ws_cons s c r : Json.skip_ws s = c :: r → (length r < length s)%nat.
Proof. intros H. pose proof (skip_ws_length s) as Hl. rewrite H in Hl. simpl in Hl. lia. Qed.

(** Recursive calls of [scanstring] are on shorter inputs: the induction its
    lemmas go by. *)
Lemma scanstring_ind (P : str → Prop) :
  (∀ s, (∀ s', (length s' < length s)%nat → P s') → P s) → ∀ s, P s.
Proof.
  intros Hstep s. remember (length s) as n eqn:Hn. revert s Hn.
  induction (lt_wf n) as [n _ IH]. intros s ->. apply Hstep.
  intros s' Hs'. by eapply IH.
Qed.

Ltac scanstring_step IH :=
  first
    [ done
    | let H := fresh in intros H; apply IH in H; simpl in *; lia
    | apply IH; simpl; lia ].

Lemma scanstring_rest s : ∀ acc k r,
  Json.scanstring s acc = Returned (k, r) → (length r < length s)%nat.
Proof.
  induction s as [s IH] using scanstring_ind. intros acc k r.
  destruct s as [|c rest]; [done|]. cbn [Json.scanstring length].
  destruct (c =? DQUOTE). { intros [= _ <-]. lia. }
  destruct (c =? BACKSLASH).
  - destruct rest as [|e rest1]; [done|].
    destruct (e =? 117).
    + destruct rest1 as [|h1 [|h2 [|h3 [|h4 rest2]]]]; try done.
      destruct (Json.decode_uXXXX h1 h2 h3 h4); [|done].
      destruct rest2 as [|b [|v [|g1 [|g2 [|g3 [|g4 rest3]]]]]];
        try scanstring_step IH.
      destruct (Json.decode_uXXXX g1 g2 g3 g4);
        [destruct (_ && _)|]; scanstring_step IH.
    + destruct (Json.backslash e); scanstring_step IH.
  - destruct (c <? 32); scanstring_step IH.
Qed.

Lemma scanstring_no_recursion_error s : ∀ acc,
  Json.scanstring s acc ≠ Raised Json.RecursionError.
Proof.
  induction s as [s IH] using scanstring_ind. intros acc.
  destruct s as [|c rest]; [done|]. cbn [Json.scanstring].
  destruct (c =? DQUOTE); [done|].
  destruct (c =? BACKSLASH).
  - destruct rest as [|e rest1]; [done|].
    destruct (e =? 117).
    + destruct rest1 as [|h1 [|h2 [|h3 [|h4 rest2]]]]; try done.
      destruct (Json.decode_uXXXX h1 h2 h3 h4); [|done].
      destruct rest2 as [|b [|v [|g1 [|g2 [|g3 [|g4 rest3]]]]]];
        try scanstring_step IH.
      destruct (Json.decode_uXXXX g1 g2 g3 g4);
        [destruct (_ && _)|]; scanstring_step IH.
    + destruct (Json.backslash e); scanstring_step IH.
  - destruct (c <? 32); scanstring_step IH.
Qed.

Lemma strip_prefix_length p s r :
  Json.strip_prefix p s = Some r → length s = (length p + length r)%nat.
Proof.
  revert s. induction p as [|a p IH]; intros [|b s]; simpl; try done.
  - by intros [= <-].
  - by intros [= <-].
  - destruct (a =? b); [|done]. intros H. apply IH in H. lia.
Qed.

Lemma span_digits_length s : (length (Json.span_digits s).2 ≤ length s)%nat.
Proof.
  induction s as [|c s IH]; simpl; [lia|].
  destruct (Json.is_digit c); [|simpl; lia].
  destruct (Json.span_digits s). simpl in *. lia.
Qed.

Lemma match_frac_length s : (length (Json.match_frac s).2 ≤ length s)%nat.
Proof.
  destruct s as [|p s]; simpl; [lia|].
  destruct (p =? 46); [|simpl; lia].
  pose proof (span_digits_length s) as Hs.
  destruct (Json.span_digits s) as [[|d ds] r]; simpl in *; lia.
Qed.

Lemma match_exp_length s : (length (Json.match_exp s).2 ≤ length s)%nat.
Proof.
  destruct s as [|e s]; simpl; [lia|].
  destruct ((e =? 101) || (e =? 69)); [|simpl; lia].
  destruct s as [|q t]; simpl; [lia|].
  destruct ((q =? 43) || (q =? 45)).
  - pose proof (span_digits_length t) as Hs.
    destruct (Json.span_digits t) as [[|d ds] r]; simpl in *; lia.
  - pose proof (span_digits_length (q :: t)) as Hs.
    destruct (Json.span_digits (q :: t)) as [[|d ds] r]; simpl in *; lia.
Qed.

Lemma match_number_rest s m :
  Json.match_number s = Some m → (length (Json.num_rest m) < length s)%nat.
Proof.
  unfold Json.match_number.
  assert (Hint : ∀ c s2 ds r,
    (if c =? 48 then Some ([c], s2)
     else if Json.is_digit c
          then let '(ds, r) := Json.span_digits s2 in Some (c :: ds, r)
          else None) = Some (ds, r) → (length r ≤ length s2)%nat).
  { intros c s2 ds r. destruct (c =? 48); [by intros [= _ <-]|].
    destruct (Json.is_digit c); [|done].
    pose proof (span_digits_length s2) as Hs.
    destruct (Json.span_digits s2). simpl in Hs. by intros [= _ <-]. }
  assert (Htail : ∀ c s2 neg m0,
    ((if c =? 48 then Some ([c], s2)
      else if Json.is_digit c
           then let '(ds, r) := Json.span_digits s2 in Some (c :: ds, r)
           else None) ≫= λ '(ds, r),
        let '(frac, r1) := Json.match_frac r in
        let '(exp, r2) := Json.match_exp r1 in
        Some (Json.NumberMatch neg ds frac exp r2)) = Some m0 →
    (length (Json.num_rest m0) ≤ length s2)%nat).
  { intros c s2 neg m0.
    destruct (if c =? 48 then _ else _) as [[ds r]|] eqn:Hi; [|done].
    apply Hint in Hi. simpl.
    pose proof (match_frac_length r) as Hf.
    destruct (Json.match_frac r) as [frac r1].
    pose proof (match_exp_length r1) as He.
    destruct (Json.match_exp r1) as [exp r2].
    intros [= <-]. simpl in *. lia. }
  destruct s as [|c s']; [done|].
  destruct (c =? 45).
  - destruct s' as [|c2 s2]; [done|]. intros H. apply Htail in H. simpl. lia.
  - intros H. apply Htail in H. simpl. lia.
Qed.

Lemma scan_atom_rest s v r :
  Json.scan_atom s = Returned (v, r) → (length r < length s)%nat.
Proof.
  unfold Json.scan_atom.
  repeat lazymatch goal with
    | |- context [Json.strip_prefix ?p s] =>
        let H := fresh in
        destruct (Json.strip_prefix p s) eqn:H;
        [apply strip_prefix_length in H; simpl in H; intros [= _ <-]; lia | clear H]
    end.
  destruct (Json.match_number s) as [m|] eqn:Hm; [|done].
  apply match_number_rest in Hm.
  destruct (Json.number_value m); simpl; [|done]. by intros [= _ <-].
Qed.

Lemma scan_atom_no_recursion_error s : Json.scan_atom s ≠ Raised Json.RecursionError.
Proof.
  unfold Json.scan_atom.
  repeat lazymatch goal with
    | |- context [Json.strip_prefix ?p s] => destruct (Json.strip_prefix p s); [done|]
    end.
  destruct (Json.match_number s) as [m|]; [|done].
  unfold Json.number_value.
  destruct (Json.num_frac m), (Json.num_exp m); simpl; try done.
  by destruct (_ <? _)%nat.
Qed.

Lemma scan_rest fuel :
  (∀ s v r, Json.scan_once fuel s = Returned (v, r) → (length r < length s)%nat)
  ∧ (∀ s pairs v r,
       Json.object_members fuel s pairs = Returned (v, r) → (length r < length s)%nat)
  ∧ (∀ s acc v r,
       Json.array_items fuel s acc = Returned (v, r) → (length r < length s)%nat).
Proof.
  induction fuel as [|fuel (IHscan & IHobject & IHarray)]; [done|].
  split; [|split].
  - intros s v r. cbn [Json.scan_once].
    destruct s as [|c rest]; [done|].
    destruct (c =? DQUOTE).
    { destruct (Json.scanstring rest []) as [[k r0]|] eqn:Hk; simpl; [|done].
      apply scanstring_rest in Hk. intros [= _ <-]. lia. }
    destruct (c =? LBRACE).
    { destruct (Json.skip_ws rest) as [|d r0] eqn:Hws; [done|].
      apply skip_ws_cons in Hws.
      destruct (d =? RBRACE); [intros [= _ <-]; simpl; lia|].
      destruct (d =? DQUOTE); [|done].
      intros H. apply IHobject in H. simpl. lia. }
    destruct (c =? 91).
    { destruct (Json.skip_ws rest) as [|d r0] eqn:Hws; [done|].
      apply skip_ws_cons in Hws.
      destruct (d =? 93); [intros [= _ <-]; simpl; lia|].
      intros H. apply IHarray in H. simpl in *. lia. }
    apply scan_atom_rest.
  - intros s pairs v r. cbn [Json.object_members].
    destruct (Json.scanstring s []) as [[key r0]|] eqn:Hk; simpl; [|done].
    apply scanstring_rest in Hk.
    destruct (Json.skip_ws r0) as [|c r1] eqn:Hws1; [done|]. apply skip_ws_cons in Hws1.
    destruct (c =? 58); [|done].
    destruct (Json.scan_once fuel (Json.skip_ws r1)) as [[value r2]|] eqn:Hv; simpl; [|done].
    apply IHscan in Hv. pose proof (skip_ws_length r1) as Hr1.
    destruct (Json.skip_ws r2) as [|d r3] eqn:Hws2; [done|]. apply skip_ws_cons in Hws2.
    destruct (d =? RBRACE); [intros [= _ <-]; lia|].
    destruct (d =? 44); [|done].
    destruct (Json.skip_ws r3) as [|q r4] eqn:Hws3; [done|]. apply skip_ws_cons in Hws3.
    destruct (q =? DQUOTE); [|done].
    intros H. apply IHobject in H. lia.
  - intros s acc v r. cbn [Json.array_items].
    destruct (Json.scan_once fuel s) as [[value r0]|] eqn:Hv; simpl; [|done].
    apply IHscan in Hv.
    destruct (Json.skip_ws r0) as [|d r1] eqn:Hws; [done|]. apply skip_ws_cons in Hws.
    destruct (d =? 93); [intros [= _ <-]; lia|].
    destruct (d =? 44); [|done].
    intros H. apply IHarray in H. pose proof (skip_ws_length r1) as Hr1. lia.
Qed.

Lemma scan_no_recursion_error fuel :
  (∀ s, (2 * length s + 1 ≤ fuel)%nat →
     Json.scan_once fuel s ≠ Raised Json.RecursionError)
  ∧ (∀ s pairs, (2 * length s + 2 ≤ fuel)%nat →
       Json.object_members fuel s pairs ≠ Raised Json.RecursionError)
  ∧ (∀ s acc, (2 * length s + 2 ≤ fuel)%nat →
       Json.array_items fuel s acc ≠ Raised Json.RecursionError).
Proof.
  induction fuel as [|fuel (IHscan & IHobject & IHarray)].
  { repeat split; intros; lia. }
  split; [|split].
  - intros s Hfuel. cbn [Json.scan_once].
    destruct s as [|c rest]; [done|]. simpl in Hfuel.
    destruct (c =? DQUOTE).
    { pose proof (scanstring_no_recursion_error rest []) as Hk.
      destruct (Json.scanstring rest []) as [[k r0]|]; simpl; [done|].
      intros [= ->]. by apply Hk. }
    destruct (c =? LBRACE).
    { destruct (Json.skip_ws rest) as [|d r0] eqn:Hws; [done|].
      apply skip_ws_cons in Hws.
      destruct (d =? RBRACE); [done|].
      destruct (d =? DQUOTE); [|done].
      apply IHobject. lia. }
    destruct (c =? 91).
    { destruct (Json.skip_ws rest) as [|d r0] eqn:Hws; [done|].
      apply skip_ws_cons in Hws.
      destruct (d =? 93); [done|].
      apply IHarray. simpl. lia. }
    apply scan_atom_no_recursion_error.
  - intros s pairs Hfuel. cbn [Json.object_members].
    pose proof (scanstring_no_recursion_error s []) as Hk'.
    destruct (Json.scanstring s []) as [[key r0]|] eqn:Hk; simpl;
      [|intros [= ->]; by apply Hk'].
    apply scanstring_rest in Hk.
    destruct (Json.skip_ws r0) as [|c r1] eqn:Hws1; [done|]. apply skip_ws_cons in Hws1.
    destruct (c =? 58); [|done].
    pose proof (skip_ws_length r1).
    pose proof (IHscan (Json.skip_ws r1) ltac:(lia)) as Hv'.
    destruct (Json.scan_once fuel (Json.skip_ws r1)) as [[value r2]|] eqn:Hv; simpl; [|done].
    apply scan_rest in Hv.
    destruct (Json.skip_ws r2) as [|d r3] eqn:Hws2; [done|]. apply skip_ws_cons in Hws2.
    destruct (d =? RBRACE); [done|].
    destruct (d =? 44); [|done].
    destruct (Json.skip_ws r3) as [|q r4] eqn:Hws3; [done|]. apply skip_ws_cons in Hws3.
    destruct (q =? DQUOTE); [|done].
    apply IHobject. lia.
  - intros s acc Hfuel. cbn [Json.array_items].
    pose proof (IHscan s ltac:(lia)) as Hv'.
    destruct (Json.scan_once fuel s) as [[value r0]|] eqn:Hv; simpl; [|done].
    apply scan_rest in Hv.
    destruct (Json.skip_ws r0) as [|d r1] eqn:Hws; [done|]. apply skip_ws_cons in Hws.
    destruct (d =? 93); [done|].
    destruct (d =? 44); [|done].
    pose proof (skip_ws_length r1). apply IHarray. lia.
Qed.

(** The budget that [loads] gives is never spent. *)
Lemma loads_no_recursion_error s : Json.loads s ≠ Raised Json.RecursionError.
Proof.
  unfold Json.loads. destruct (startswith _ s); [done|].
  pose proof (skip_ws_length s).
  pose proof (proj1 (scan_no_recursion_error (S (2 * length s)))
                (Json.skip_ws s) ltac:(lia)) as Hscan.
  destruct (Json.scan_once _ _) as [[obj r]|]; simpl.
  - by destruct (Json.skip_ws r).
  - intros [= ->]. by apply Hscan.
Qed.

(** ** The decoder on a text that starts with a brace *)

Lemma match_here_lbrace s g : Re.match_here s = Some g → ∃ r, g = LBRACE :: r.
Proof.
  destruct s as [|c s']; simpl; [done|].
  destruct (N.eqb_spec c LBRACE) as [->|]; [|done].
  destruct (Re.star_then_rbrace s'); simpl; [|done].
  intros [= <-]. eauto.
Qed.

Lemma search_lbrace s g : Re.search s = Some g → ∃ r, g = LBRACE :: r.
Proof.
  induction s as [|c s' IH].
  - simpl. done.
  - cbn [Re.search]. destruct (Re.match_here (c :: s')) as [m|] eqn:Hm.
    + intros [= <-]. by eapply match_here_lbrace.
    + exact IH.
Qed.

Lemma object_members_object fuel s pairs v r :
  Json.object_members fuel s pairs = Returned (v, r) → ∃ m, v = JObject m.
Proof.
  revert s pairs. induction fuel as [|fuel IH]; intros s pairs; simpl; [done|].
  destruct (Json.scanstring s []) as [[key r0]|]; simpl; [|done].
  destruct (Json.skip_ws r0) as [|c r1]; [done|].
  destruct (c =? 58); [|done].
  destruct (Json.scan_once fuel (Json.skip_ws r1)) as [[value r2]|]; simpl; [|done].
  destruct (Json.skip_ws r2) as [|d r3]; [done|].
  destruct (d =? RBRACE).
  { intros [= <- _]. eauto. }
  destruct (d =? 44); [|done].
  destruct (Json.skip_ws r3) as [|q r4]; [done|].
  destruct (q =? DQUOTE); [|done].
  apply IH.
Qed.

Lemma loads_lbrace_object r v :
  Json.loads (LBRACE :: r) = Returned v → ∃ m, v = JObject m.
Proof.
  unfold Json.loads. 
  change (startswith [65279] (LBRACE :: r)) with false. cbv iota.
  change (Json.skip_ws (LBRACE :: r)) with (LBRACE :: r).
  cbn [Json.scan_once].
  change (LBRACE =? DQUOTE) with false. change (LBRACE =? LBRACE) with true. cbv iota.
  destruct (Json.skip_ws r) as [|d r1]; [done|].
  destruct (d =? RBRACE).
  { simpl. destruct (Json.skip_ws r1); [|done]. intros [= <-]. eauto. }
  destruct (d =? DQUOTE); [|done].
  destruct (Json.object_members _ r1 ∅) as [[v' r2]|] eqn:Hm; simpl; [|done].
  destruct (Json.skip_ws r2); [|done]. intros [= <-]. by eapply object_members_object.
Qed.

(** ** The response parser *)

(** C1: on the model output of the example the parser returns the mapping of
    [optimized_resume] to A, [changelog] to B and [suggestions] to C, and
    nothing else. *)
Theorem parse_json_output_three_fields :
  parse_json_output c1_text
  = Returned (JObject {[ py "optimized_resume" := JString (py "A");
                         py "changelog" := JString (py "B");
                         py "suggestions" := JString (py "C") ]}).
Proof. vm_compute. reflexivity. Qed.

(** C2: when parsing fails, for lack of a match or because the match is not
    valid JSON, the parser returns the fallback mapping (the raw text and the
    two placeholders) and raises nothing. *)
Theorem parse_json_output_fallback (output_text : str) :
  parsing_fails output_text →
  parse_json_output output_text
  = Returned (JObject
      {[ py "optimized_resume" := JString output_text;
         py "changelog" := JString (py "Could not parse changelog from model output.");
         py "suggestions" := JString (py "Could not parse suggestions from model output.") ]}).
Proof.
  unfold parse_json_output, parse_json_try.
  intros [Hnone | (group0 & e & Hsome & Hraise)].
  - rewrite Hnone. reflexivity.
  - rewrite Hsome, Hraise. reflexivity.
Qed.

(** The example of C2: a text with no brace. *)
Lemma parse_json_output_plain_text :
  parsing_fails (py "plain text only")
  ∧ parse_json_output (py "plain text only")
    = Returned (JObject
        {[ py "optimized_resume" := JString (py "plain text only");
           py "changelog" := JString (py "Could not parse changelog from model output.");
           py "suggestions" := JString (py "Could not parse suggestions from model output.") ]}).
Proof.
  assert (H : parsing_fails (py "plain text only")) by (left; reflexivity).
  split; [exact H | exact (parse_json_output_fallback (py "plain text only") H)].
Defined.

Lemma dom_fallback_mapping (output_text : str) :
  dom (fallback_mapping output_text) = result_keys.
Proof.
  unfold fallback_mapping, result_keys.
  rewrite !dom_insert_L, dom_singleton_L. set_solver.
Qed.

(** C3, as the specification has it, fails: a model output that is an object
    with one member is returned as it is decoded, with its one key. *)
Lemma parse_json_output_one_key :
  parse_json_output one_member_text
  = Returned (JObject {[ py "optimized_resume" := JString (py "A") ]})
  ∧ ¬ has_exactly_three_keys (parse_json_output one_member_text).
Proof.
  assert (Hrun : parse_json_output one_member_text
                 = Returned (JObject {[ py "optimized_resume" := JString (py "A") ]}))
    by (vm_compute; reflexivity).
  split; [exact Hrun|].
  intros (m & Hm & Hdom). rewrite Hrun in Hm. injection Hm as <-.
  apply (f_equal size) in Hdom. vm_compute in Hdom. discriminate.
Qed.

(** C3, amended: the parser returns a mapping on every input and never
    raises.  When parsing fails it is the fallback mapping, which has exactly
    the three keys; otherwise it is the object decoded from the match, with
    the keys that object has. *)
Theorem parse_json_output_mapping (output_text : str) :
  ∃ m, parse_json_output output_text = Returned (JObject m)
     ∧ (parsing_fails output_text →
          m = fallback_mapping output_text ∧ dom m = result_keys)
     ∧ (∀ group0 v, Re.search output_text = Some group0 →
          Json.loads group0 = Returned v → v = JObject m).
Proof.
  unfold parse_json_output, parse_json_try.
  destruct (Re.search output_text) as [group0|] eqn:Hsearch.
  - destruct (Json.loads group0) as [v|e] eqn:Hloads; simpl.
    + destruct (search_lbrace _ _ Hsearch) as [r ->].
      destruct (loads_lbrace_object _ _ Hloads) as [m ->].
      exists m. split; [done|]. split.
      * intros [Hnone | (g & e & Hg & He)]; congruence.
      * intros g v' Hg Hv'. congruence.
    + exists (fallback_mapping output_text). split; [done|]. split.
      * intros _. split; [done | apply dom_fallback_mapping].
      * intros g v' Hg Hv'. congruence.
  - exists (fallback_mapping output_text). split; [done|]. split.
    + intros _. split; [done | apply dom_fallback_mapping].
    + intros g v' Hg. congruence.
Qed.

(** C8: when the text has a [{] and, later, a [}], what the parser hands to
    [json.loads] is the slice from the first [{] of the text to its last [}],
    whatever lies between. *)
Theorem parse_json_output_span (output_text : str) (i j : nat) :
  (i < j)%nat →
  output_text !! i = Some LBRACE →
  output_text !! j = Some RBRACE →
  ∃ first last,
    (output_text !! first = Some LBRACE
     ∧ ∀ k, (k < first)%nat → output_text !! k ≠ Some LBRACE)
    ∧ (output_text !! last = Some RBRACE
       ∧ ∀ k, (last < k)%nat → output_text !! k ≠ Some RBRACE)
    ∧ first_index LBRACE output_text = Some first
    ∧ last_index RBRACE output_text = Some last
    ∧ (first < last)%nat
    ∧ Re.search output_text = Some (slice first (S last) output_text)
    ∧ parse_json_try output_text
      = (v ← Json.loads (slice first (S last) output_text); Returned (Some v)).
Proof.
  intros Hij Hi Hj.
  destruct (first_index_is_Some _ _ _ Hi) as (f & Hf & Hfi).
  destruct (last_index_is_Some _ _ _ Hj) as (l & Hl & Hjl).
  exists f, l.
  assert (Hs : Re.search output_text = Some (slice f (S l) output_text)).
  { rewrite search_first_last, Hf. simpl.
    rewrite (last_index_drop _ _ l (S f) Hl) by lia. simpl.
    unfold slice. pose proof (proj1 (first_index_Some _ _ _) Hf) as [Hf' _].
    rewrite (drop_S _ _ _ Hf'). replace (S l - f)%nat with (S (l - f)) by lia.
    simpl. do 3 f_equal. lia. }
  split; [by apply first_index_Some|].
  split; [by apply last_index_Some|].
  repeat split; [done|done|lia|done|].
  unfold parse_json_try. by rewrite Hs.
Qed.

(** An instance of C8: the braces at positions 5 and 7 are not the outermost
    ones, and the match runs from position 1 to position 7. *)
Lemma parse_json_output_span_example :
  (5 < 7)%nat
  ∧ py "x{a}y{b}z" !! 5%nat = Some LBRACE
  ∧ py "x{a}y{b}z" !! 7%nat = Some RBRACE
  ∧ Re.search (py "x{a}y{b}z") = Some (py "{a}y{b}").
Proof.
  split; [lia|]. split; [reflexivity|]. split; [reflexivity|].
  destruct (parse_json_output_span (py "x{a}y{b}z") 5 7)
    as (first & last & _ & _ & Hfirst & Hlast & _ & Hsearch & _);
    [lia | reflexivity | reflexivity |].
  vm_compute in Hfirst. vm_compute in Hlast.
  injection Hfirst as <-. injection Hlast as <-.
  rewrite Hsearch. reflexivity.
Defined.

(** ** The model client *)

(** C4: the client returns the output text paired with [None] when the call
    returns, and [None] paired with the message of the exception when the call
    raises; it raises nothing itself. *)
Theorem call_openai_chat_pair
    (responses_create : request → PyResult model_response)
    (system_prompt user_prompt : str) :
  let req := Request MODEL
               [Message (py "system") system_prompt; Message (py "user") user_prompt]
               TEMPERATURE MAX_OUTPUT_TOKENS in
  let result := call_openai_chat responses_create system_prompt user_prompt in
  (∀ response, responses_create req = Returned response →
     result = Returned (Some (output_text response), None))
  ∧ (∀ e, responses_create req = Raised e →
       result = Returned (None, Some (exc_str e)))
  ∧ ((∃ text, result = Returned (Some text, None))
     ∨ (∃ message, result = Returned (None, Some message))).
Proof.
  cbv zeta. unfold call_openai_chat.
  destruct (responses_create _) as [response|e]; simpl.
  - split; [by intros ? [= <-]|]. split; [done|]. left. eauto.
  - split; [done|]. split; [by intros ? [= <-]|]. right. eauto.
Qed.

(** An instance of C4: a call that fails with a connection error. *)
Lemma call_openai_chat_connection_error :
  call_openai_chat (λ _, Raised (Exn "APIConnectionError" (py "Connection error.")))
                   (py "system rules") (py "resume and job")
  = Returned (None, Some (py "Connection error.")).
Proof.
  exact (proj1 (proj2 (call_openai_chat_pair
                         (λ _, Raised (Exn "APIConnectionError" (py "Connection error.")))
                         (py "system rules") (py "resume and job")))
           (Exn "APIConnectionError" (py "Connection error.")) eq_refl).
Defined.

(** ** The output renderer *)

Lemma render_line_add (doc : document) (line : str) :
  render_line doc line = doc ++ [paragraph_of_line line].
Proof.
  unfold render_line, paragraph_of_line, add_paragraph.
  case_bool_decide; [done|]. by destruct (startswith _ _).
Qed.

Lemma render_lines (doc : document) (lines : list str) :
  foldl render_line doc lines = doc ++ map paragraph_of_line lines.
Proof.
  revert doc. induction lines as [|line lines IH]; intros doc; simpl.
  - by rewrite app_nil_r.
  - rewrite IH, render_line_add, <- app_assoc. done.
Qed.

Lemma create_docx_from_text_map (text : str) :
  create_docx_from_text text = map paragraph_of_line (splitlines text).
Proof. unfold create_docx_from_text. by rewrite render_lines. Qed.

(** *** Texts the document library accepts *)

Lemma lstrip_suffix (s : str) : lstrip s `suffix_of` s.
Proof.
  induction s as [|x s IH]; simpl; [done|].
  destruct (isspace x); [by apply suffix_cons_r|done].
Qed.

Lemma Forall_lstrip (P : N → Prop) (s : str) : Forall P s → Forall P (lstrip s).
Proof.
  intros H. destruct (lstrip_suffix s) as [k Hk]. rewrite Hk in H.
  by apply Forall_app in H as [_ H].
Qed.

Lemma Forall_strip (P : N → Prop) (s : str) : Forall P s → Forall P (strip s).
Proof.
  intros H. unfold strip, rstrip.
  by apply Forall_reverse, Forall_lstrip, Forall_reverse, Forall_lstrip.
Qed.

Lemma splitlines_from_Forall (P : N → Prop) (s : str) : ∀ cur,
  Forall P cur → Forall P s → Forall (Forall P) (splitlines_from cur s).
Proof.
  induction s as [s IH] using scanstring_ind. intros cur Hcur Hs.
  assert (Hrev : Forall P (reverse cur)) by by apply Forall_reverse.
  destruct s as [|c s']; cbn [splitlines_from].
  - destruct cur; [done|]. by constructor.
  - apply Forall_cons in Hs as [Hc Hs'].
    destruct (c =? CR).
    + destruct s' as [|d s'']; [by repeat constructor|].
      pose proof Hs' as [_ Hs'']%Forall_cons.
      destruct (d =? LF); constructor; try done; apply IH; simpl; try done; lia.
    + destruct (is_linebreak c).
      * constructor; [done|]. apply IH; [simpl; lia|done..].
      * apply IH; [simpl; lia| |done]. by constructor.
Qed.

Lemma encode_char_scalar (c : N) : is_scalar c = true ↔ is_Some (encode_char c).
Proof.
  unfold is_scalar, encode_char.
  destruct (N.ltb_spec c 128), (N.ltb_spec c 2048), (N.ltb_spec c 65536),
    (N.ltb_spec c 1114112), (N.leb_spec 55296 c), (N.leb_spec c 57343);
    cbn [andb negb]; try lia; split; (eauto || done || by intros [? ?]).
Qed.

Lemma xml_char_scalar (c : N) : xml_char c = true → is_scalar c = true.
Proof.
  unfold xml_char.
  destruct (N.eqb_spec c 9) as [->|_]; [done|].
  destruct (N.eqb_spec c LF) as [->|_]; [done|].
  destruct (N.eqb_spec c CR) as [->|_]; [done|].
  cbn [orb]. by intros [[_ ?]%andb_prop _]%andb_prop.
Qed.

Lemma encode_utf8_returns (s : str) :
  Forall (λ c, is_scalar c = true) s → ∃ bs, encode_utf8 s = Returned bs.
Proof.
  induction 1 as [|c s Hc _ [bs Hbs]]; [by exists []|].
  apply encode_char_scalar in Hc as [cs Hcs].
  exists (cs ++ bs). simpl. by rewrite Hcs, Hbs.
Qed.

Lemma forallb_Forall_true (f : N → bool) (s : str) :
  Forall (λ c, f c = true) s → forallb f s = true.
Proof. induction 1 as [|c s Hc _ IH]; simpl; [done|]. by rewrite Hc, IH. Qed.

Lemma forallb_true_Forall (f : N → bool) (s : str) :
  forallb f s = true → Forall (λ c, f c = true) s.
Proof.
  induction s as [|c s IH]; simpl; [constructor|].
  intros [Hc Hs]%andb_prop. constructor; [done|by apply IH].
Qed.

Lemma set_text_returns (text : str) :
  Forall (λ c, xml_char c = true) text → set_text text = Returned ().
Proof.
  intros H. unfold set_text.
  destruct (encode_utf8_returns text) as [bs ->].
  { eapply Forall_impl; [exact H|]. apply xml_char_scalar. }
  cbn [mbind PyResult_bind]. by rewrite forallb_Forall_true.
Qed.

Lemma flush_returns (bfr : str) :
  Forall (λ c, xml_char c = true) bfr → flush bfr = Returned ().
Proof.
  intros H. destruct bfr as [|c bfr]; [done|].
  by apply set_text_returns, Forall_reverse.
Qed.

Lemma add_text_returns (text : str) : ∀ bfr,
  Forall (λ c, xml_char c = true) bfr → Forall (λ c, xml_char c = true) text →
  add_text bfr text = Returned ().
Proof.
  induction text as [|c text IH]; intros bfr Hbfr Htext; cbn [add_text].
  - by apply flush_returns.
  - apply Forall_cons in Htext as [Hc Htext].
    destruct (_ || _).
    + rewrite flush_returns by done. cbn [mbind PyResult_bind]. by apply IH.
    + apply IH; [by constructor|done].
Qed.

Lemma add_paragraph_result_returns (doc : document) (text : str) (st : style) :
  Forall (λ c, xml_char c = true) text →
  add_paragraph_result doc text st = Returned (add_paragraph doc text st).
Proof.
  intros H. unfold add_paragraph_result. by rewrite add_text_returns.
Qed.

Lemma render_line_result_returns (doc : document) (line : str) :
  Forall (λ c, xml_char c = true) line →
  render_line_result doc line = Returned (render_line doc line).
Proof.
  intros H. unfold render_line_result, render_line.
  case_bool_decide; [by apply add_paragraph_result_returns|].
  destruct (startswith _ _); apply add_paragraph_result_returns; [|done].
  by apply Forall_drop, Forall_strip.
Qed.

Lemma render_lines_result_returns (lines : list str) : ∀ doc,
  Forall (Forall (λ c, xml_char c = true)) lines →
  render_lines_result doc lines = Returned (foldl render_line doc lines).
Proof.
  induction lines as [|line lines IH]; intros doc Hlines; [done|].
  apply Forall_cons in Hlines as [Hline Hlines].
  cbn [render_lines_result foldl]. rewrite render_line_result_returns by done.
  cbn [mbind PyResult_bind]. by apply IH.
Qed.

Lemma create_docx_from_text_result_returns (text : str) :
  Forall (λ c, xml_char c = true) text →
  create_docx_from_text_result text = Returned (create_docx_from_text text).
Proof.
  intros H. unfold create_docx_from_text_result, create_docx_from_text, splitlines.
  apply render_lines_result_returns. by apply splitlines_from_Forall.
Qed.




(** A text outside the amended statement: with a control character in a
    line, [add_paragraph] raises and the renderer returns no document. *)
Example create_docx_from_text_control_character :
  create_docx_from_text_result (py "Skills" ++ [1]) = Raised ValueError.
Proof. vm_compute. reflexivity. Qed.

(** ** The text extractors *)

Lemma fresh_path_unused (fs : filesystem) : fs !! fresh (dom fs) = None.
Proof. apply not_elem_of_dom, is_fresh. Qed.

(** What the DOCX extractor comes to: the outcome of the library on the bytes,
    and the files as they were. *)
Lemma extract_text_from_docx_run
    (docx_text : bytes → PyResult str) (file_bytes : bytes) (fs : filesystem) :
  extract_text_from_docx docx_text file_bytes fs
  = (text ← (if (length file_bytes <? zip_min_size)%nat then Raised BadZipFile
             else docx_text file_bytes);
     Returned (match text with [] => [] | _ :: _ => text end),
     fs).
Proof.
  pose proof (fresh_path_unused fs) as Hfresh.
  unfold extract_text_from_docx, mbind, IO_bind, PyResult_bind,
    NamedTemporaryFile_write, try_finally, docx2txt_process, os_remove.
  rewrite insert_insert_eq, !lookup_insert_eq, delete_insert_id by done.
  by destruct (if (length file_bytes <? zip_min_size)%nat then _ else _).
Qed.

(** C9: the DOCX extractor writes its bytes to a file that did not exist,
    and when it returns or raises that file is gone and the files are those
    there were before the call. *)
Theorem extract_text_from_docx_removes_temp
    (docx_text : bytes → PyResult str) (file_bytes : bytes) (fs : filesystem) :
  let tmp_path := fresh (dom fs) in
  let during := <[tmp_path := file_bytes]> fs in
  let after := (extract_text_from_docx docx_text file_bytes fs).2 in
  let outcome := (extract_text_from_docx docx_text file_bytes fs).1 in
  fs !! tmp_path = None
  ∧ NamedTemporaryFile_write file_bytes fs = (Returned tmp_path, during)
  ∧ after !! tmp_path = None
  ∧ after = fs
  ∧ (∀ text, (docx2txt_process docx_text tmp_path during).1 = Returned text →
       outcome = Returned (match text with [] => [] | _ :: _ => text end))
  ∧ (∀ e, (docx2txt_process docx_text tmp_path during).1 = Raised e →
       outcome = Raised e).
Proof.
  cbv zeta. pose proof (fresh_path_unused fs) as Hfresh.
  rewrite extract_text_from_docx_run. simpl.
  split; [done|]. split.
  { unfold NamedTemporaryFile_write. by rewrite insert_insert_eq. }
  split; [done|]. split; [done|].
  unfold docx2txt_process. rewrite lookup_insert_eq. simpl.
  split; intros ? ->; done.
Qed.

(** C6, as the specification has it, fails: on empty bytes the PDF extractor
    and the DOCX extractor raise what their library raises, here with
    libraries that find no text in any file they can open. *)
Lemma extractors_raise_on_empty_bytes :
  extract_text_from_pdf (λ _, Returned []) [] = Raised PDFSyntaxError
  ∧ (extract_text_from_docx (λ _, Returned []) [] ∅).1 = Raised BadZipFile
  ∧ (extract_text_from_docx (λ _, Returned []) [] ∅).2 = ∅.
Proof. vm_compute. done. Qed.

Lemma pdf_pages_loop_no_text (pages : list (PyResult (option str))) (text : list str) :
  Forall (λ page, page = Returned None ∨ page = Returned (Some [])) pages →
  pdf_pages_loop pages text = Returned text.
Proof.
  induction 1 as [|page pages [-> | ->] _ IH]; simpl; done.
Qed.

(** C6, amended: the plain-text decode returns the empty string on empty
    bytes and raises on no input.  The PDF and the DOCX extractor have no
    handler: what the library raises on bytes it cannot open, empty bytes
    among them, reaches the caller, and they return the empty string when the
    library opens the file and finds no text in it. *)
Theorem extractors_on_short_input
    (pdf_pages : bytes → PyResult (list (PyResult (option str))))
    (docx_text : bytes → PyResult str) :
  Utf8.decode_ignore [] = []
  ∧ (∀ name file_bytes fs,
       endswith (py ".pdf") name = false → endswith (py ".docx") name = false →
       extract_resume_text pdf_pages docx_text name file_bytes fs
       = (Returned (Utf8.decode_ignore file_bytes), fs))
  ∧ extract_text_from_pdf pdf_pages [] = Raised PDFSyntaxError
  ∧ (∀ file_bytes e, pdfplumber_open pdf_pages file_bytes = Raised e →
       extract_text_from_pdf pdf_pages file_bytes = Raised e)
  ∧ (∀ file_bytes pages, pdfplumber_open pdf_pages file_bytes = Returned pages →
       Forall (λ page, page = Returned None ∨ page = Returned (Some [])) pages →
       extract_text_from_pdf pdf_pages file_bytes = Returned [])
  ∧ (∀ file_bytes fs, (length file_bytes < zip_min_size)%nat →
       extract_text_from_docx docx_text file_bytes fs = (Raised BadZipFile, fs))
  ∧ (∀ file_bytes fs e, (zip_min_size ≤ length file_bytes)%nat →
       docx_text file_bytes = Raised e →
       extract_text_from_docx docx_text file_bytes fs = (Raised e, fs))
  ∧ (∀ file_bytes fs, (zip_min_size ≤ length file_bytes)%nat →
       docx_text file_bytes = Returned [] →
       extract_text_from_docx docx_text file_bytes fs = (Returned [], fs)).
Proof.
  split; [done|]. split.
  { intros name file_bytes fs Hpdf Hdocx. unfold extract_resume_text.
    by rewrite Hpdf, Hdocx. }
  split; [done|]. split.
  { intros file_bytes e Hopen. unfold extract_text_from_pdf. by rewrite Hopen. }
  split.
  { intros file_bytes pages Hopen Hpages. unfold extract_text_from_pdf.
    rewrite Hopen. simpl. by rewrite pdf_pages_loop_no_text. }
  split.
  { intros file_bytes fs Hshort. rewrite extract_text_from_docx_run.
    by rewrite (proj2 (Nat.ltb_lt _ _) Hshort). }
  split.
  - intros file_bytes fs e Hlong He. rewrite extract_text_from_docx_run.
    rewrite (proj2 (Nat.ltb_ge _ _) Hlong), He. done.
  - intros file_bytes fs Hlong Htext. rewrite extract_text_from_docx_run.
    rewrite (proj2 (Nat.ltb_ge _ _) Hlong), Htext. done.
Qed.

(** ** The web page text fetcher *)

Lemma raise_for_status_error (resp : response) :
  (400 ≤ status_code resp < 600)%Z → ∃ e, raise_for_status resp = Raised e.
Proof.
  intros Hstatus. unfold raise_for_status.
  repeat case_bool_decide; eauto. lia.
Qed.

(** C7: when the fetch fails, with any exception and so with the one that
    [raise_for_status] raises on a 404, the fetcher returns the text of the
    exception behind the prefix [Error fetching URL: ]; it raises nothing. *)
Theorem fetch_text_from_url_sentinel (w : web) (url : str) :
  (∀ e, fetch_try w url = Raised e →
     fetch_text_from_url w url = Returned (py "Error fetching URL: " ++ exc_str e))
  ∧ (∀ resp, requests_get w url = Returned resp →
       (400 ≤ status_code resp < 600)%Z →
       ∃ e, fetch_try w url = Raised e
          ∧ fetch_text_from_url w url = Returned (py "Error fetching URL: " ++ exc_str e))
  ∧ (∃ text, fetch_text_from_url w url = Returned text).
Proof.
  unfold fetch_text_from_url. split; [|split].
  - intros e ->. done.
  - intros resp Hget Hstatus.
    destruct (raise_for_status_error resp Hstatus) as [e He].
    exists e. unfold fetch_try. rewrite Hget. simpl. rewrite He. done.
  - destruct (fetch_try w url); simpl; eauto.
Qed.

(** An instance of C7: a page that does not exist. *)
Lemma fetch_text_from_url_404 :
  fetch_text_from_url web_404 (py "https://example.com/job")
  = Returned (py "Error fetching URL: 404 Client Error: Not Found for url: https://example.com/job").
Proof.
  exact (proj1 (fetch_text_from_url_sentinel web_404 (py "https://example.com/job"))
           (HTTPError "Client"
              (Response 404 (py "Not Found") (py "https://example.com/job") []))
           eq_refl).
Defined.

(** The handler looks at the first five characters only. *)
Lemma fetch_button_handler_prefix (w : web) (job_url job_description text : str) :
  job_url ≠ [] →
  fetch_text_from_url w job_url = Returned text →
  startswith (py "Error") text = true →
  fetch_button_handler w true job_url job_description
  = Returned (job_description, [st_error text]).
Proof.
  intros Hurl Hfetch Hprefix. unfold fetch_button_handler.
  rewrite bool_decide_eq_false_2, Hfetch by done.
  cbn [andb negb mbind PyResult_bind]. by rewrite Hprefix.
Qed.

(** C10: the handler tests the result for the prefix [Error], not for the
    whole prefix of the fetcher: whatever text the fetcher returns that begins
    with that word is shown as an error, and the job description stays as it
    was.  There is a page whose fetch succeeds, with a text that begins with
    that word and not with the prefix of the fetcher, to which this
    happens. *)
Theorem fetch_button_handler_misclassifies :
  (∀ (w : web) (job_url job_description text : str),
     job_url ≠ [] →
     fetch_text_from_url w job_url = Returned text →
     startswith (py "Error") text = true →
     fetch_button_handler w true job_url job_description
     = Returned (job_description, [st_error text]))
  ∧ ∃ (w : web) (job_url job_description text : str),
      fetch_try w job_url = Returned text
      ∧ fetch_text_from_url w job_url = Returned text
      ∧ startswith (py "Error") text = true
      ∧ startswith (py "Error fetching URL: ") text = false
      ∧ job_description ≠ text
      ∧ fetch_button_handler w true job_url job_description
        = Returned (job_description, [st_error text]).
Proof.
  split; [exact fetch_button_handler_prefix|].
  exists web_error_page, (py "https://example.com/job"), (py "pasted description"),
    (py "Error budget analyst wanted").
  assert (Hfetch : fetch_text_from_url web_error_page (py "https://example.com/job")
                   = Returned (py "Error budget analyst wanted"))
    by (vm_compute; reflexivity).
  split; [vm_compute; reflexivity|]. split; [exact Hfetch|].
  split; [reflexivity|]. split; [reflexivity|]. split; [discriminate|].
  apply fetch_button_handler_prefix; [discriminate | exact Hfetch | reflexivity].
Qed.

(** * Further properties of the code *)

(** ** The pattern search and the parser on text around an object *)

Lemma first_index_app (c : N) (pre s : str) :
  c ∉ pre → first_index c (pre ++ c :: s) = Some (length pre).
Proof.
  induction pre as [|x pre IH]; intros Hnot; simpl.
  - by rewrite N.eqb_refl.
  - apply not_elem_of_cons in Hnot as [Hx Hpre].
    destruct (N.eqb_spec x c) as [->|_]; [done|]. by rewrite IH.
Qed.

Lemma last_index_notin (c : N) (s : str) : c ∉ s → last_index c s = None.
Proof.
  induction s as [|x s IH]; intros Hnot; [done|]. simpl.
  apply not_elem_of_cons in Hnot as [Hx Hs]. rewrite IH by done.
  destruct (N.eqb_spec x c) as [->|_]; done.
Qed.

Lemma last_index_app (c : N) (body post : str) :
  c ∉ post → last_index c (body ++ c :: post) = Some (length body).
Proof.
  intros Hnot. induction body as [|x body IH]; simpl.
  - by rewrite last_index_notin, N.eqb_refl.
  - by rewrite IH.
Qed.

Lemma search_between (pre body post : str) :
  LBRACE ∉ pre → RBRACE ∉ post →
  Re.search (pre ++ LBRACE :: body ++ RBRACE :: post) = Some (LBRACE :: body ++ [RBRACE]).
Proof.
  intros Hpre Hpost. rewrite search_first_last, first_index_app by done.
  cbn [mbind option_bind].
  assert (Hdrop : drop (S (length pre)) (pre ++ LBRACE :: body ++ RBRACE :: post)
                  = body ++ RBRACE :: post).
  { rewrite (cons_middle LBRACE), app_assoc.
    apply drop_app_length'. rewrite length_app. simpl. lia. }
  rewrite Hdrop, last_index_app by done. cbn [mbind option_bind].
  do 2 f_equal. rewrite (cons_middle RBRACE), app_assoc.
  apply take_app_length'. rewrite length_app. simpl. lia.
Qed.

(** X1: text before the first [{] and after the last [}] is ignored.  When
    the model wraps a valid object in prose or in a Markdown fence, with no
    brace in what surrounds it, the parser returns the decoded object. *)
Theorem parse_json_output_ignores_prose (pre body post : str) (v : json) :
  LBRACE ∉ pre → RBRACE ∉ post →
  Json.loads (LBRACE :: body ++ [RBRACE]) = Returned v →
  parse_json_output (pre ++ LBRACE :: body ++ RBRACE :: post) = Returned v.
Proof.
  intros Hpre Hpost Hloads. unfold parse_json_output, parse_json_try.
  by rewrite search_between, Hloads.
Qed.

(** An instance of X1: the object of the first example inside a fence. *)
Lemma parse_json_output_fenced :
  parse_json_output fenced_text
  = Returned (JObject {[ py "optimized_resume" := JString (py "A");
                         py "changelog" := JString (py "B");
                         py "suggestions" := JString (py "C") ]}).
Proof.
  apply (parse_json_output_ignores_prose fence_open c1_body fence_close).
  - apply (bool_decide_unpack _). vm_compute. exact I.
  - apply (bool_decide_unpack _). vm_compute. exact I.
  - vm_compute. reflexivity.
Defined.

(** X2: what the pattern matches is a contiguous part of the text that
    begins with [{] and ends with [}], with no [{] before it in the text and
    no [}] after it. *)
Theorem re_search_match_shape (s group0 : str) :
  Re.search s = Some group0 →
  ∃ pre body post,
    group0 = LBRACE :: body ++ [RBRACE]
    ∧ s = pre ++ group0 ++ post
    ∧ (LBRACE ∉ pre) ∧ (RBRACE ∉ post).
Proof.
  rewrite search_first_last.
  destruct (first_index LBRACE s) as [i|] eqn:Hi; [|done]. cbn [mbind option_bind].
  destruct (last_index RBRACE (drop (S i) s)) as [j|] eqn:Hj; [|done].
  cbn [mbind option_bind]. intros [= <-].
  apply first_index_Some in Hi as [Hi Hleast].
  apply last_index_Some in Hj as [Hj Hgreatest].
  exists (take i s), (take j (drop (S i) s)), (drop (S j) (drop (S i) s)).
  split; [|split; [|split]].
  - f_equal. by rewrite (take_S_r _ _ _ Hj).
  - rewrite <- (take_drop i s) at 1. f_equal.
    rewrite (drop_S _ _ _ Hi). simpl. f_equal.
    by rewrite take_drop.
  - intros Hin. apply list_elem_of_lookup in Hin as [k Hk].
    pose proof (lookup_lt_Some _ _ _ Hk) as Hlt. rewrite length_take in Hlt.
    rewrite lookup_take_lt in Hk by lia. apply (Hleast k); [lia|done].
  - intros Hin. apply list_elem_of_lookup in Hin as [k Hk].
    rewrite lookup_drop in Hk. apply (Hgreatest (S j + k)%nat); [lia|done].
Qed.

(** An instance of X2. *)
Lemma re_search_match_shape_example :
  Re.search (py "x{a}y{b}z") = Some (py "{a}y{b}")
  ∧ ∃ pre body post,
      py "{a}y{b}" = LBRACE :: body ++ [RBRACE]
      ∧ py "x{a}y{b}z" = pre ++ py "{a}y{b}" ++ post
      ∧ (LBRACE ∉ pre) ∧ (RBRACE ∉ post).
Proof.
  assert (H : Re.search (py "x{a}y{b}z") = Some (py "{a}y{b}")) by reflexivity.
  split; [exact H | exact (re_search_match_shape _ _ H)].
Defined.

(** ** The fetcher on the pages it receives *)

Lemma startswith_error_prefix (message : str) :
  startswith (py "Error") (error_prefix ++ message) = true.
Proof. reflexivity. Qed.

(** X3: a fetch that fails never replaces the job description.  The handler
    shows the fetcher's message as an error and keeps the job description
    there was. *)
Theorem fetch_failure_shown_as_error
    (w : web) (job_url job_description : str) (e : exn) :
  job_url ≠ [] →
  fetch_try w job_url = Raised e →
  fetch_text_from_url w job_url = Returned (py "Error fetching URL: " ++ exc_str e)
  ∧ fetch_button_handler w true job_url job_description
    = Returned (job_description, [st_error (py "Error fetching URL: " ++ exc_str e)]).
Proof.
  intros Hurl Hraise.
  assert (Hfetch : fetch_text_from_url w job_url
                   = Returned (py "Error fetching URL: " ++ exc_str e)).
  { unfold fetch_text_from_url. by rewrite Hraise. }
  split; [done|].
  apply fetch_button_handler_prefix; [done | done | apply startswith_error_prefix].
Qed.

(** An instance of X3: the page that does not exist. *)
Lemma fetch_failure_shown_as_error_404 :
  fetch_button_handler web_404 true (py "https://example.com/job") (py "pasted description")
  = Returned (py "pasted description",
              [st_error (py "Error fetching URL: 404 Client Error: Not Found for url: https://example.com/job")]).
Proof.
  exact (proj2 (fetch_failure_shown_as_error web_404 (py "https://example.com/job")
                  (py "pasted description")
                  (HTTPError "Client"
                     (Response 404 (py "Not Found") (py "https://example.com/job") []))
                  ltac:(discriminate) eq_refl)).
Defined.

Lemma fetch_try_page (w : web) (url : str) (parsed : Soup.node) :
  fetched w url parsed → fetch_try w url = Returned (page_text parsed).
Proof.
  intros (resp & Hget & Hstatus & Hparse). unfold fetch_try.
  rewrite Hget. cbn [mbind PyResult_bind]. rewrite Hstatus. cbn [mbind PyResult_bind].
  rewrite Hparse. reflexivity.
Qed.

Lemma fetch_text_from_url_page (w : web) (url : str) (parsed : Soup.node) :
  fetched w url parsed → fetch_text_from_url w url = Returned (page_text parsed).
Proof. intros H. unfold fetch_text_from_url. by rewrite (fetch_try_page _ _ _ H). Qed.

Lemma fetched_web_serving (parsed : Soup.node) (url : str) :
  fetched (web_serving parsed) url parsed.
Proof. by exists (Response 200 (py "OK") url []). Qed.

(** Induction on a tree, with the hypothesis on every child of a tag. *)
Lemma node_nested_ind (P : Soup.node → Prop) :
  (∀ name contents, Forall P contents → P (Soup.Tag name contents)) →
  (∀ s, P (Soup.NavigableString s)) →
  (∀ s, P (Soup.Comment s)) →
  ∀ n, P n.
Proof.
  intros Htag Hstring Hcomment. fix IH 1. intros [name contents|s|s].
  - apply Htag. induction contents as [|c contents IHcs]; constructor; [apply IH|done].
  - apply Hstring.
  - apply Hcomment.
Qed.

Lemma is_tag_named_decompose (names : list str) (n : Soup.node) :
  Soup.is_tag_named names (Soup.decompose_all names n) = Soup.is_tag_named names n.
Proof. by destruct n. Qed.

Lemma find_all_decompose_all (names : list str) (n : Soup.node) :
  Soup.find_all names (Soup.decompose_all names n) = [].
Proof.
  unfold Soup.find_all.
  induction n as [name contents IH|s|s] using node_nested_ind; [|done..].
  cbn [Soup.decompose_all Soup.descendants].
  induction IH as [|c contents Hc _ IHcs]; [done|].
  cbn [flat_map]. destruct (Soup.is_tag_named names c) eqn:Hnamed; [done|].
  cbn [app flat_map]. rewrite filter_cons, filter_app, Hc, IHcs.
  rewrite is_tag_named_decompose, Hnamed. by case_decide.
Qed.

Lemma strings_tag (name : str) (contents : list Soup.node) :
  Soup.strings (Soup.Tag name contents)
  = flat_map (λ c, match c with
                   | Soup.NavigableString s => s :: Soup.strings c
                   | _ => Soup.strings c
                   end) contents.
Proof.
  unfold Soup.strings. cbn [Soup.descendants].
  induction contents as [|c contents IH]; [done|].
  cbn [flat_map]. rewrite omap_app, IH. by destruct c.
Qed.

Lemma strings_decompose_all (names : list str) (n : Soup.node) :
  Soup.strings (Soup.decompose_all names n) `sublist_of` Soup.strings n.
Proof.
  induction n as [name contents IH|s|s] using node_nested_ind; [|done..].
  cbn [Soup.decompose_all]. rewrite !strings_tag.
  induction IH as [|c contents Hc _ IHcs]; [done|].
  cbn [flat_map]. destruct (Soup.is_tag_named names c) eqn:Hnamed.
  - cbn [app]. by apply sublist_inserts_l.
  - cbn [app flat_map]. apply sublist_app; [|done].
    destruct c; [exact Hc | reflexivity | reflexivity].
Qed.

Lemma decompose_all_unchanged (names : list str) (n : Soup.node) :
  Soup.find_all names n = [] → Soup.decompose_all names n = n.
Proof.
  unfold Soup.find_all.
  induction n as [name contents IH|s|s] using node_nested_ind; [|done..].
  cbn [Soup.decompose_all Soup.descendants]. intros Hnone. f_equal.
  induction IH as [|c contents Hc _ IHcs]; [done|].
  cbn [flat_map app] in *. rewrite filter_cons, filter_app in Hnone.
  case_decide as Hnamed; [done|]. apply not_true_is_false in Hnamed.
  apply app_eq_nil in Hnone as [Hc' Hcs'].
  rewrite Hnamed. cbn [app]. by rewrite Hc, IHcs.
Qed.

(** X4: after the loop that decomposes the tags of the given names (lines
    51-52 with script, style and noscript) none of them is left anywhere in
    the tree; the strings of the tree are strings it had, in their order; and
    a tree that had no such tag is not changed. *)
Theorem decompose_all_removes_tags (names : list str) (n : Soup.node) :
  Soup.find_all names (Soup.decompose_all names n) = []
  ∧ Soup.strings (Soup.decompose_all names n) `sublist_of` Soup.strings n
  ∧ (Soup.find_all names n = [] → Soup.decompose_all names n = n).
Proof.
  split; [apply find_all_decompose_all|].
  split; [apply strings_decompose_all | apply decompose_all_unchanged].
Qed.

Lemma max_by_first_max
    (key : Soup.node → nat) (first : Soup.node) (others : list Soup.node) :
  ∃ before after,
    first :: others = before ++ Soup.max_by key first others :: after
    ∧ Forall (λ d, (key d < key (Soup.max_by key first others))%nat) before
    ∧ Forall (λ d, (key d ≤ key (Soup.max_by key first others))%nat) after.
Proof.
  unfold Soup.max_by. revert first.
  induction others as [|d others IH]; intros first; simpl.
  - exists [], []. by repeat split.
  - destruct (Nat.ltb_spec (key first) (key d)) as [Hlt|Hge].
    + destruct (IH d) as (before & after & Heq & Hbefore & Hafter).
      remember (foldl _ d others) as m eqn:Hm. clear Hm IH.
      exists (first :: before), after. split; [by rewrite Heq|]. split; [|done].
      constructor; [|done].
      destruct before as [|b before]; injection Heq as -> Hothers; [lia|].
      apply Forall_cons in Hbefore as [Hb _]. lia.
    + destruct (IH first) as (before & after & Heq & Hbefore & Hafter).
      remember (foldl _ first others) as m eqn:Hm. clear Hm IH.
      destruct before as [|b before]; injection Heq as -> Hothers.
      * exists [], (d :: others). split; [done|]. split; [done|].
        constructor; [lia|by subst].
      * exists (b :: d :: before), after. split; [by rewrite Hothers|]. split; [|done].
        apply Forall_cons in Hbefore as [Hb Hbefore].
        repeat constructor; [done|lia|done].
Qed.

(** X5: on a page with no main element the fetcher returns the stripped
    text of the division whose text is longest, the first of them when
    several are as long: every division before the chosen one has a shorter
    text, and none after it has a longer one. *)
Theorem fetch_text_largest_div
    (w : web) (url : str) (parsed d : Soup.node) (divs : list Soup.node) :
  let soup := Soup.decompose_all [py "script"; py "style"; py "noscript"] parsed in
  let size (x : Soup.node) := length (Soup.get_text [] x) in
  fetched w url parsed →
  Soup.find (py "main") soup = None →
  Soup.find_all [py "div"] soup = d :: divs →
  ∃ before chosen after,
    d :: divs = before ++ chosen :: after
    ∧ Forall (λ x, (size x < size chosen)%nat) before
    ∧ Forall (λ x, (size x ≤ size chosen)%nat) after
    ∧ fetch_text_from_url w url = Returned (strip (Soup.get_text [LF] chosen)).
Proof.
  cbv zeta. intros Hfetched Hmain Hdivs.
  destruct (max_by_first_max (λ x, length (Soup.get_text [] x)) d divs)
    as (before & after & Heq & Hbefore & Hafter).
  eexists before, _, after. split; [exact Heq|]. split; [exact Hbefore|].
  split; [exact Hafter|].
  rewrite (fetch_text_from_url_page _ _ _ Hfetched). unfold page_text.
  by rewrite Hmain, Hdivs.
Qed.

(** An instance of X5: a page with a script and three divisions, the last
    two of the greatest length. *)
Lemma fetch_text_largest_div_example :
  let size (x : Soup.node) := length (Soup.get_text [] x) in
  ∃ before chosen after,
    [Soup.Tag (py "div") [Soup.NavigableString (py "Menu")];
     Soup.Tag (py "div") [Soup.NavigableString (py "  Data engineer, Python  ")];
     Soup.Tag (py "div") [Soup.NavigableString (py "  Cookie notice: accept  ")]]
    = before ++ chosen :: after
    ∧ Forall (λ x, (size x < size chosen)%nat) before
    ∧ Forall (λ x, (size x ≤ size chosen)%nat) after
    ∧ fetch_text_from_url (web_serving three_div_page) (py "https://example.com/job")
      = Returned (strip (Soup.get_text [LF] chosen)).
Proof.
  apply (fetch_text_largest_div (web_serving three_div_page)
           (py "https://example.com/job") three_div_page).
  - apply fetched_web_serving.
  - reflexivity.
  - reflexivity.
Defined.

(** On that page the division taken is the first of the two longest. *)
Example fetch_text_first_of_longest :
  fetch_text_from_url (web_serving three_div_page) (py "https://example.com/job")
  = Returned (py "Data engineer, Python").
Proof. vm_compute. reflexivity. Qed.

Lemma lstrip_head (s : str) (c : N) : head (lstrip s) = Some c → isspace c = false.
Proof.
  induction s as [|x s IH]; simpl; [done|].
  destruct (isspace x) eqn:Hx; [done|]. simpl. by intros [= <-].
Qed.

Lemma lstrip_not_space (c : N) (s : str) : isspace c = false → lstrip (c :: s) = c :: s.
Proof. intros H. simpl. by rewrite H. Qed.

Lemma lstrip_idemp (s : str) : lstrip (lstrip s) = lstrip s.
Proof.
  induction s as [|x s IH]; simpl; [done|].
  destruct (isspace x) eqn:Hx; [done|]. simpl. by rewrite Hx.
Qed.

Lemma lstrip_snoc (s : str) (c : N) :
  isspace c = false → lstrip (s ++ [c]) = lstrip s ++ [c].
Proof.
  intros Hc. induction s as [|x s IH]; simpl; [by rewrite Hc|].
  by destruct (isspace x).
Qed.

Lemma rstrip_cons (c : N) (s : str) : isspace c = false → rstrip (c :: s) = c :: rstrip s.
Proof.
  intros Hc. unfold rstrip. rewrite reverse_cons, lstrip_snoc by done.
  by rewrite reverse_app.
Qed.

Lemma rstrip_idemp (s : str) : rstrip (rstrip s) = rstrip s.
Proof. unfold rstrip. by rewrite reverse_involutive, lstrip_idemp. Qed.

Lemma rstrip_last (s : str) (c : N) : last (rstrip s) = Some c → isspace c = false.
Proof. unfold rstrip. rewrite last_reverse. apply lstrip_head. Qed.

Lemma strip_head (s : str) (c : N) : head (strip s) = Some c → isspace c = false.
Proof.
  unfold strip. pose proof (lstrip_head s) as Hhead.
  destruct (lstrip s) as [|x t]; [done|].
  rewrite rstrip_cons by by apply Hhead. simpl. intros [= <-]. by apply Hhead.
Qed.

Lemma strip_idemp (s : str) : strip (strip s) = strip s.
Proof.
  unfold strip at 1.
  assert (lstrip (strip s) = strip s) as ->; [|unfold strip; apply rstrip_idemp].
  pose proof (strip_head s) as Hhead.
  destruct (strip s) as [|x t]; [done|]. apply lstrip_not_space. by apply Hhead.
Qed.

Lemma fetch_try_stripped (w : web) (url text : str) :
  fetch_try w url = Returned text → ∃ t, text = strip t.
Proof.
  unfold fetch_try.
  destruct (requests_get w url) as [resp|]; [|done]. cbn [mbind PyResult_bind].
  destruct (raise_for_status resp); [|done]. cbn [mbind PyResult_bind].
  destruct (BeautifulSoup w _); [|done]. cbn [mbind PyResult_bind].
  intros [= <-]. eauto.
Qed.

(** X6: the text of a page that was fetched has no whitespace at either
    end: its first and its last character are not whitespace, and stripping
    it again changes nothing. *)
Theorem fetch_try_no_surrounding_whitespace (w : web) (url text : str) :
  fetch_try w url = Returned text →
  fetch_text_from_url w url = Returned text
  ∧ strip text = text
  ∧ (∀ c, head text = Some c → isspace c = false)
  ∧ (∀ c, last text = Some c → isspace c = false).
Proof.
  intros Hfetch. split; [unfold fetch_text_from_url; by rewrite Hfetch|].
  destruct (fetch_try_stripped _ _ _ Hfetch) as [t ->].
  split; [apply strip_idemp|]. split; [apply strip_head|].
  unfold strip. apply rstrip_last.
Qed.

(** An instance of X6: the page whose divisions are padded with spaces. *)
Lemma fetch_try_no_surrounding_whitespace_example :
  fetch_try (web_serving three_div_page) (py "https://example.com/job")
  = Returned (py "Data engineer, Python")
  ∧ strip (py "Data engineer, Python") = py "Data engineer, Python".
Proof.
  assert (H : fetch_try (web_serving three_div_page) (py "https://example.com/job")
              = Returned (py "Data engineer, Python")) by (vm_compute; reflexivity).
  split; [exact H|].
  exact (proj1 (proj2 (fetch_try_no_surrounding_whitespace _ _ _ H))).
Defined.

(** ** The PDF extractor on the pages it is given *)

Lemma pdf_pages_loop_returned (texts : list (option str)) (text : list str) :
  pdf_pages_loop (Returned <$> texts) text = Returned (text ++ omap page_text_kept texts).
Proof.
  revert text. induction texts as [|t texts IH]; intros text; simpl.
  - by rewrite app_nil_r.
  - destruct t as [[|c t']|]; simpl; rewrite IH; [done| |done].
    by rewrite <- app_assoc.
Qed.

Lemma pdf_pages_loop_raised
    (texts : list (option str)) (e : exn) (rest : list (PyResult (option str)))
    (text : list str) :
  pdf_pages_loop ((Returned <$> texts) ++ Raised e :: rest) text = Raised e.
Proof.
  revert text. induction texts as [|t texts IH]; intros text; simpl; [done|].
  destruct t as [[|c t']|]; simpl; by rewrite IH.
Qed.

(** X7: when every page gives its text, the PDF extractor returns the texts
    of the pages that have one, in page order, with one line feed between two
    of them and none at the end; pages without text leave no trace.  When a
    page raises, that exception is the outcome, whatever the pages before it
    held. *)
Theorem extract_text_from_pdf_pages
    (pdf_pages : bytes → PyResult (list (PyResult (option str)))) (file_bytes : bytes) :
  (∀ texts, pdfplumber_open pdf_pages file_bytes = Returned (Returned <$> texts) →
     extract_text_from_pdf pdf_pages file_bytes
     = Returned (join [LF] (omap page_text_kept texts)))
  ∧ (∀ texts e rest,
       pdfplumber_open pdf_pages file_bytes
       = Returned ((Returned <$> texts) ++ Raised e :: rest) →
       extract_text_from_pdf pdf_pages file_bytes = Raised e).
Proof.
  unfold extract_text_from_pdf. split.
  - intros texts ->. cbn [mbind PyResult_bind]. by rewrite pdf_pages_loop_returned.
  - intros texts e rest ->. cbn [mbind PyResult_bind]. by rewrite pdf_pages_loop_raised.
Qed.

(** An instance of X7: three pages, the second one an image. *)
Example extract_text_from_pdf_three_pages :
  extract_text_from_pdf
    (λ _, Returned [Returned (Some (py "Page one")); Returned (Some []);
                    Returned (Some (py "Page three"))]) [37; 80; 68; 70]
  = Returned (py "Page one" ++ [LF] ++ py "Page three").
Proof.
  exact (proj1 (extract_text_from_pdf_pages _ [37; 80; 68; 70])
           [Some (py "Page one"); Some []; Some (py "Page three")] eq_refl).
Defined.

(** ** The renderer on lines *)

Lemma splitlines_from_no_break (s : str) : ∀ cur,
  Forall (λ c, is_linebreak c = false) cur →
  Forall (Forall (λ c, is_linebreak c = false)) (splitlines_from cur s).
Proof.
  induction s as [s IH] using scanstring_ind. intros cur Hcur.
  assert (Hrev : Forall (λ c, is_linebreak c = false) (reverse cur))
    by by apply Forall_reverse.
  destruct s as [|c s']; cbn [splitlines_from].
  - destruct cur; [done|]. by constructor.
  - destruct (c =? CR).
    + destruct s' as [|d s'']; [by repeat constructor|].
      destruct (d =? LF); constructor; try done; apply IH; simpl; try done; lia.
    + destruct (is_linebreak c) eqn:Hc.
      * constructor; [done|]. apply IH; [simpl; lia|done].
      * apply IH; [simpl; lia|]. by constructor.
Qed.

Lemma paragraph_of_line_no_break (line : str) :
  Forall (λ c, is_linebreak c = false) line →
  Forall (λ c, is_linebreak c = false) (par_text (paragraph_of_line line)).
Proof.
  intros H. unfold paragraph_of_line.
  case_bool_decide; [done|].
  destruct (startswith _ _); simpl; [|done].
  by apply Forall_drop, Forall_strip.
Qed.

(** X8: no paragraph of the document holds a line boundary: whatever the
    text, each paragraph is one line. *)
Theorem create_docx_from_text_one_line_each (text : str) :
  Forall (λ p, Forall (λ c, is_linebreak c = false) (par_text p))
         (create_docx_from_text text).
Proof.
  rewrite create_docx_from_text_map. apply Forall_fmap.
  pose proof (splitlines_from_no_break text [] ltac:(done)) as Hlines.
  unfold splitlines. eapply Forall_impl; [exact Hlines|].
  intros line. apply paragraph_of_line_no_break.
Qed.

Lemma splitlines_from_app_lf (a : str) : ∀ cur b c,
  last a = Some c → is_linebreak c = false →
  splitlines_from cur (a ++ LF :: b) = splitlines_from cur a ++ splitlines b.
Proof.
  induction a as [a IH] using scanstring_ind. intros cur b c Hlast Hc.
  destruct a as [|x a']; [done|].
  cbn [app splitlines_from].
  destruct (N.eqb_spec x CR) as [->|Hx].
  - destruct a' as [|d a'']; [by simplify_eq/=|].
    cbn [app]. destruct (N.eqb_spec d LF) as [->|Hd].
    + destruct a'' as [|y a''']; [by simplify_eq/=|].
      simpl. f_equal. by eapply (IH (y :: a''')); [simpl; lia|..].
    + simpl. f_equal. by eapply (IH (d :: a'')); [simpl; lia|..].
  - destruct (is_linebreak x) eqn:Hbreak.
    + destruct a' as [|d a'']; [simplify_eq/=; congruence|].
      simpl. f_equal. by eapply (IH (d :: a'')); [simpl; lia|..].
    + destruct a' as [|d a'']; [done|].
      by eapply (IH (d :: a'')); [simpl; lia|..].
Qed.

(** The lines of a text, a line feed and a second text, when the first text
    does not end with a line boundary: an empty first text gives an empty
    line. *)
Lemma splitlines_app_lf (a b : str) :
  ends_with_linebreak a = false →
  splitlines (a ++ LF :: b)
  = match a with [] => [[]] | _ :: _ => splitlines a end ++ splitlines b.
Proof.
  unfold ends_with_linebreak, splitlines. intros Hend.
  destruct (last a) as [c|] eqn:Hlast.
  - rewrite (splitlines_from_app_lf a [] b c Hlast Hend). by destruct a.
  - apply last_None in Hlast as ->. done.
Qed.

(** X9: rendering goes line by line.  Take two texts of characters that XML
    allows, the first not ending with a line boundary.  The renderer returns
    on the first text, a line feed and the second text, and the document is
    that of the first text followed by that of the second; when the first
    text is empty, one empty paragraph (the document of a line feed alone,
    where the empty text has no paragraph) followed by that of the second.  So
    a line feed at the end of a text that is not empty adds no paragraph. *)
Theorem create_docx_from_text_newline (a b : str) :
  ends_with_linebreak a = false →
  Forall (λ c, xml_char c = true) a →
  Forall (λ c, xml_char c = true) b →
  let first :=
    match a with
    | [] => [Paragraph [] Normal]
    | _ :: _ => create_docx_from_text a
    end in
  create_docx_from_text_result a = Returned (create_docx_from_text a)
  ∧ create_docx_from_text_result b = Returned (create_docx_from_text b)
  ∧ create_docx_from_text_result (a ++ LF :: b)
    = Returned (first ++ create_docx_from_text b)
  ∧ create_docx_from_text_result (a ++ [LF]) = Returned first.
Proof.
  intros Hend Ha Hb. cbv zeta.
  assert (Hjoin : ∀ b', Forall (λ c, xml_char c = true) b' →
            create_docx_from_text_result (a ++ LF :: b')
            = Returned (match a with
                        | [] => [Paragraph [] Normal]
                        | _ :: _ => create_docx_from_text a
                        end ++ create_docx_from_text b')).
  { intros b' Hb'. rewrite create_docx_from_text_result_returns
      by (apply Forall_app; split; [done|by constructor]).
    rewrite !create_docx_from_text_map, (splitlines_app_lf a b' Hend), fmap_app.
    by destruct a. }
  split; [by apply create_docx_from_text_result_returns|].
  split; [by apply create_docx_from_text_result_returns|].
  split; [by apply Hjoin|].
  rewrite (Hjoin [] ltac:(constructor)). by rewrite app_nil_r.
Qed.

(** An instance of X9. *)
Lemma create_docx_from_text_newline_example :
  create_docx_from_text_result (py "Skills" ++ LF :: py "- Python")
  = Returned (create_docx_from_text (py "Skills") ++ create_docx_from_text (py "- Python"))
  ∧ create_docx_from_text_result (py "Skills" ++ [LF])
    = Returned (create_docx_from_text (py "Skills")).
Proof.
  assert (Ha : Forall (λ c, xml_char c = true) (py "Skills"))
    by (apply forallb_true_Forall; vm_compute; reflexivity).
  assert (Hb : Forall (λ c, xml_char c = true) (py "- Python"))
    by (apply forallb_true_Forall; vm_compute; reflexivity).
  pose proof (create_docx_from_text_newline (py "Skills") (py "- Python")
                eq_refl Ha Hb) as (_ & _ & Hjoin & Hend).
  split; [exact Hjoin | exact Hend].
Defined.

(** The empty first text: a line feed alone gives one empty paragraph, the
    empty text none. *)
Example create_docx_from_text_line_feed :
  create_docx_from_text_result [LF] = Returned [Paragraph [] Normal]
  ∧ create_docx_from_text_result [] = Returned [].
Proof. vm_compute. done. Qed.

(** ** The text export and the plain-text upload *)

Lemma div_mod_64 (c : N) : c = 64 * (c / 64) + c mod 64 ∧ c mod 64 < 64.
Proof. split; [apply N.div_mod; lia | apply N.mod_lt; lia]. Qed.

Lemma div_4096 (c : N) : c / 4096 = c / 64 / 64.
Proof. rewrite N.Div0.div_div. done. Qed.

Lemma div_262144 (c : N) : c / 262144 = c / 64 / 64 / 64.
Proof. rewrite !N.Div0.div_div. done. Qed.

Ltac decide_tests :=
  repeat match goal with
    | |- context [?x <? ?k] => destruct (N.ltb_spec x k); try lia
    | |- context [?x <=? ?k] => destruct (N.leb_spec x k); try lia
    | |- context [?x =? ?k] => destruct (N.eqb_spec x k); try lia
    end.

Lemma decode_encode_char (c : N) (bs rest : bytes) :
  encode_char c = Some bs →
  Utf8.decode_ignore (bs ++ rest) = c :: Utf8.decode_ignore rest.
Proof.
  unfold encode_char.
  destruct (div_mod_64 c) as [Hc Hr].
  destruct (div_mod_64 (c / 64)) as [Hc1 Hr1].
  destruct (div_mod_64 (c / 64 / 64)) as [Hc2 Hr2].
  rewrite div_4096, div_262144.
  generalize dependent (c mod 64). intros r0 Hc Hr.
  generalize dependent ((c / 64) mod 64). intros r1 Hc1 Hr1.
  generalize dependent ((c / 64 / 64) mod 64). intros r2 Hc2 Hr2.
  generalize dependent (c / 64 / 64 / 64). intros q3 Hc2.
  generalize dependent (c / 64 / 64). intros q2 Hc1 Hc2.
  generalize dependent (c / 64). intros q1 Hc Hc1.
  destruct (N.ltb_spec c 128).
  { intros [= <-]. cbn [app Utf8.decode_ignore]. by decide_tests. }
  destruct (N.ltb_spec c 2048).
  { intros [= <-]. cbn [app Utf8.decode_ignore]. unfold Utf8.is_cont.
    decide_tests. cbn [andb]. f_equal. lia. }
  destruct (N.ltb_spec c 65536).
  { destruct (N.leb_spec 55296 c), (N.leb_spec c 57343); cbn [andb]; try done;
      intros [= <-]; cbn [app Utf8.decode_ignore];
      unfold Utf8.second_of_3, Utf8.is_cont; decide_tests; cbn [andb negb]; f_equal; lia. }
  destruct (N.ltb_spec c 1114112); [|done].
  intros [= <-]. cbn [app Utf8.decode_ignore].
  unfold Utf8.second_of_4, Utf8.is_cont; decide_tests; cbn [andb negb]; f_equal; lia.
Qed.

(** X10: a text without surrogates that the script exports (line 195) reads
    back unchanged when its bytes are uploaded as a plain-text file (line
    161): encoding succeeds, and decoding the bytes gives the text. *)
Theorem utf8_export_reads_back (s : str) :
  Forall (λ c, is_scalar c = true) s →
  ∃ bs, encode_utf8 s = Returned bs ∧ Utf8.decode_ignore bs = s.
Proof.
  induction 1 as [|c s Hc _ (bs & Hbs & Hdecode)]; [by exists []|].
  apply encode_char_scalar in Hc as [cs Hcs].
  exists (cs ++ bs). simpl. rewrite Hcs, Hbs. split; [done|].
  by rewrite (decode_encode_char _ _ _ Hcs), Hdecode.
Qed.

(** An instance of X10: one, two, three and four byte characters. *)
Lemma utf8_export_reads_back_example :
  ∃ bs, encode_utf8 [82; 233; 8364; 128512] = Returned bs
      ∧ Utf8.decode_ignore bs = [82; 233; 8364; 128512].
Proof.
  apply (utf8_export_reads_back [82; 233; 8364; 128512]).
  repeat constructor.
Defined.

(** X11: the export raises exactly on a text that holds a surrogate (or a
    number that is no code point), and then with [UnicodeEncodeError]. *)
Theorem encode_utf8_raises (s : str) :
  encode_utf8 s = Raised UnicodeEncodeError ↔ Exists (λ c, is_scalar c = false) s.
Proof.
  induction s as [|c s IH]; simpl.
  - split; [done|]. by intros ?%Exists_nil.
  - rewrite Exists_cons. destruct (encode_char c) as [cs|] eqn:Hcs.
    + assert (is_scalar c = true) as Hc by (apply encode_char_scalar; eauto).
      destruct (encode_utf8 s) as [bs|e]; simpl.
      * split; [done|]. intros [?|Hs]; [congruence|]. by apply IH in Hs.
      * split; [intros [= ->]; right; by apply IH|]. intros [?|Hs]; [congruence|].
        apply IH in Hs. by rewrite Hs.
    + split; [|done]. intros _. left.
      destruct (is_scalar c) eqn:Hc; [|done].
      apply encode_char_scalar in Hc as [? ?]. congruence.
Qed.

Lemma is_cont_bounds (b : N) : Utf8.is_cont b = true → 128 ≤ b ≤ 191.
Proof. unfold Utf8.is_cont. decide_tests; done. Qed.

Lemma second_of_3_bounds (b0 b1 : N) :
  Utf8.second_of_3 b0 b1 = true →
  128 ≤ b1 ≤ 191 ∧ (b0 = 224 → 160 ≤ b1) ∧ (b0 = 237 → b1 < 160).
Proof.
  unfold Utf8.second_of_3. intros [Hc Hn]%andb_prop. apply is_cont_bounds in Hc.
  revert Hn. decide_tests; cbn [negb]; try done; lia.
Qed.

Lemma second_of_4_bounds (b0 b1 : N) :
  Utf8.second_of_4 b0 b1 = true →
  128 ≤ b1 ≤ 191 ∧ (b0 = 240 → 144 ≤ b1) ∧ (b0 = 244 → b1 < 144).
Proof.
  unfold Utf8.second_of_4. intros [Hc Hn]%andb_prop. apply is_cont_bounds in Hc.
  revert Hn. decide_tests; cbn [negb]; try done; lia.
Qed.

Lemma is_scalar_bounds (c : N) : c < 55296 ∨ 57343 < c < 1114112 → is_scalar c = true.
Proof. unfold is_scalar. intros H. decide_tests; done. Qed.

Ltac decoded_nothing := split; [by constructor | simpl in *; lia].
Ltac decoded_rest IH := destruct IH; split; [done | simpl in *; lia].

(** X12: whatever the bytes of a plain-text upload, the decoded text holds
    only Unicode scalar values, no surrogate and nothing past U+10FFFF, and
    has at most as many characters as there are bytes. *)
Theorem decode_ignore_scalar_values (bs : bytes) :
  Forall (λ c, is_scalar c = true) (Utf8.decode_ignore bs)
  ∧ (length (Utf8.decode_ignore bs) ≤ length bs)%nat.
Proof.
  induction bs as [bs IH] using scanstring_ind.
  destruct bs as [|b0 r0]; [decoded_nothing|]. cbn [Utf8.decode_ignore].
  assert (IH0 := IH r0 ltac:(simpl; lia)).
  destruct (N.ltb_spec b0 128).
  { destruct IH0. split; [constructor; [apply is_scalar_bounds; lia|done]|simpl; lia]. }
  destruct (N.ltb_spec b0 194); [decoded_rest IH0|].
  destruct (N.ltb_spec b0 224).
  { destruct r0 as [|b1 r1]; [decoded_nothing|].
    destruct (Utf8.is_cont b1) eqn:Hc1; [|decoded_rest IH0].
    apply is_cont_bounds in Hc1. destruct (IH r1 ltac:(simpl; lia)).
    split; [constructor; [apply is_scalar_bounds; lia|done]|simpl; lia]. }
  destruct (N.ltb_spec b0 240).
  { destruct r0 as [|b1 r1]; [decoded_nothing|].
    destruct (Utf8.second_of_3 b0 b1) eqn:Hc1; [|decoded_rest IH0].
    apply second_of_3_bounds in Hc1 as (Hc1 & Hlow & Hhigh).
    destruct r1 as [|b2 r2]; [decoded_nothing|].
    destruct (Utf8.is_cont b2) eqn:Hc2.
    - apply is_cont_bounds in Hc2. destruct (IH r2 ltac:(simpl; lia)).
      split; [constructor; [|done]|simpl; lia].
      apply is_scalar_bounds.
      destruct (decide (b0 = 224)); [lia|]. destruct (decide (b0 = 237)); [lia|].
      destruct (decide (b0 < 237)); lia.
    - pose proof (IH (b2 :: r2) ltac:(simpl; lia)) as IH1. decoded_rest IH1. }
  destruct (N.ltb_spec b0 245); [|decoded_rest IH0].
  destruct r0 as [|b1 r1]; [decoded_nothing|].
  destruct (Utf8.second_of_4 b0 b1) eqn:Hc1; [|decoded_rest IH0].
  apply second_of_4_bounds in Hc1 as (Hc1 & Hlow & Hhigh).
  destruct r1 as [|b2 r2]; [decoded_nothing|].
  destruct (Utf8.is_cont b2) eqn:Hc2.
  - apply is_cont_bounds in Hc2.
    destruct r2 as [|b3 r3]; [decoded_nothing|].
    destruct (Utf8.is_cont b3) eqn:Hc3.
    + apply is_cont_bounds in Hc3. destruct (IH r3 ltac:(simpl; lia)).
      split; [constructor; [|done]|simpl; lia].
      apply is_scalar_bounds.
      destruct (decide (b0 = 240)); [lia|]. destruct (decide (b0 = 244)); lia.
    + pose proof (IH (b3 :: r3) ltac:(simpl; lia)) as IH1. decoded_rest IH1.
  - pose proof (IH (b2 :: r2) ltac:(simpl; lia)) as IH1. decoded_rest IH1.
Qed.

(** ** The prompt builder *)

(** X13: the user prompt does not delimit its two inputs.  A resume that
    ends with the heading of the job description and some text gives the
    same prompt as the resume without them and a job description that begins
    with that text and the heading: the model cannot tell the two apart. *)
Theorem build_user_prompt_undelimited (resume_text middle job_text : str) :
  let heading := [LF; LF] ++ py "Job Description:" ++ [LF] in
  build_user_prompt (resume_text ++ heading ++ middle) job_text
  = build_user_prompt resume_text (middle ++ heading ++ job_text).
Proof.
  cbv zeta. unfold build_user_prompt.
  rewrite <- !app_assoc. repeat f_equal.
Qed.

(** ** The script after the extraction: the model call and the display *)

Section Optimize.

Context (responses_create : request → PyResult model_response).

(** X14: when the model call raises an exception that has a message, the
    script shows that message behind [OpenAI API error: ] and stops; nothing
    of a result is shown. *)
Theorem optimize_model_error (resume_text job_description : str) (e : exn) :
  responses_create (script_request resume_text job_description) = Raised e →
  exc_str e ≠ [] →
  optimize responses_create resume_text job_description
  = ([st_subheader (py "Optimizing your resume...");
      ui (st_error (py "OpenAI API error: " ++ exc_str e))], Stopped).
Proof.
  intros Hcall Hmsg. unfold optimize, call_openai_chat.
  fold (script_request resume_text job_description). rewrite Hcall.
  cbn [mbind PyResult_bind try_except]. by destruct (exc_str e).
Qed.

(** X15: the test of the error is its truth value.  When the model call
    raises an exception whose message is empty, no error is shown: the script
    goes on to the display, with [None] as the resume and the two placeholder
    texts. *)
Theorem optimize_error_without_message (resume_text job_description : str) (e : exn) :
  responses_create (script_request resume_text job_description) = Raised e →
  exc_str e = [] →
  optimize responses_create resume_text job_description
  = (results_page JNull
       (JString (py "Could not parse changelog from model output."))
       (JString (py "Could not parse suggestions from model output.")), Rendered).
Proof.
  intros Hcall Hmsg. unfold optimize, call_openai_chat.
  fold (script_request resume_text job_description). rewrite Hcall.
  cbn [mbind PyResult_bind try_except]. rewrite Hmsg. vm_compute. reflexivity.
Qed.


(** X17: when the output of the model holds an object in which each of the
    three keys is missing or has a string without surrogates, each of the
    three fields shown is the string the object has under its key, and the
    empty string when the object has no such key; the run reaches the end of
    the display. *)
Theorem optimize_missing_keys
    (resume_text job_description group0 : str) (response : model_response)
    (parsed_output : gmap str json) :
  responses_create (script_request resume_text job_description) = Returned response →
  Re.search (output_text response) = Some group0 →
  Json.loads group0 = Returned (JObject parsed_output) →
  plain_string (dict_get parsed_output (py "optimized_resume")) = true →
  plain_string (dict_get parsed_output (py "changelog")) = true →
  plain_string (dict_get parsed_output (py "suggestions")) = true →
  let field key := default (JString []) (parsed_output !! py key) in
  optimize responses_create resume_text job_description
  = (results_page (field "optimized_resume") (field "changelog") (field "suggestions"),
     Rendered).
Proof.
  intros Hcall Hsearch Hloads _ _ _. cbv zeta. unfold optimize, call_openai_chat.
  fold (script_request resume_text job_description). rewrite Hcall.
  cbn [mbind PyResult_bind try_except parse_json_output_object].
  assert (parse_json_output (output_text response)
          = Returned (JObject parsed_output)) as ->.
  { unfold parse_json_output, parse_json_try. by rewrite Hsearch, Hloads. }
  done.
Qed.

End Optimize.

(** An instance of X14. *)
Lemma optimize_model_error_example :
  optimize (failing_client (py "Connection error.")) (py "resume") (py "job")
  = ([st_subheader (py "Optimizing your resume...");
      ui (st_error (py "OpenAI API error: Connection error."))], Stopped).
Proof.
  exact (optimize_model_error (failing_client (py "Connection error."))
           (py "resume") (py "job") (Exn "APIConnectionError" (py "Connection error."))
           eq_refl ltac:(discriminate)).
Defined.

(** An instance of X15. *)
Lemma optimize_error_without_message_example :
  optimize (failing_client []) (py "resume") (py "job")
  = (results_page JNull
       (JString (py "Could not parse changelog from model output."))
       (JString (py "Could not parse suggestions from model output.")), Rendered).
Proof.
  exact (optimize_error_without_message (failing_client [])
           (py "resume") (py "job") (Exn "APIConnectionError" []) eq_refl eq_refl).
Defined.


(** An instance of X17: an answer with the resume only. *)
Lemma optimize_missing_keys_example :
  optimize (answering_client one_member_text) (py "resume") (py "job")
  = (results_page (JString (py "A")) (JString []) (JString []), Rendered).
Proof.
  pose proof (optimize_missing_keys (answering_client one_member_text)
                (py "resume") (py "job") one_member_text (ModelResponse one_member_text)
                {[ py "optimized_resume" := JString (py "A") ]} eq_refl) as H.
  cbv zeta in H.
  rewrite H; [reflexivity | reflexivity | vm_compute; reflexivity | reflexivity..].
Defined.

(** ** The script *)

Section ScriptRuns.

Context (w : web) (pdf_pages : bytes → PyResult (list (PyResult (option str))))
  (docx_text : bytes → PyResult str) (responses_create : request → PyResult model_response).

Lemma fetch_button_handler_cases (pressed : bool) (job_url job_description : str) :
  fetch_button_handler w pressed job_url job_description = Returned (job_description, [])
  ∨ (∃ text, fetch_button_handler w pressed job_url job_description
             = Returned (job_description, [st_error text]))
  ∨ (∃ text, fetch_button_handler w pressed job_url job_description
             = Returned (text, [st_success (py "Fetched job description successfully.");
                                st_rerun])
           ∧ pressed = true ∧ job_url ≠ []
           ∧ fetch_try w job_url = Returned text
           ∧ startswith (py "Error") text = false).
Proof.
  unfold fetch_button_handler.
  destruct pressed; cbn [andb]; [|by left].
  case_bool_decide as Hurl; cbn [negb]; [by left|].
  unfold fetch_text_from_url.
  destruct (fetch_try w job_url) as [text|e] eqn:Hfetch; cbn [try_except mbind PyResult_bind].
  - destruct (startswith (py "Error") text) eqn:Hprefix.
    + right. left. eauto.
    + right. right. exists text. done.
  - right. left. exists (error_prefix ++ exc_str e).
    by rewrite startswith_error_prefix.
Qed.

(** A run that the fetch button did not start. *)
Lemma script_not_pressed (wd : widgets) (fs : filesystem) :
  fetch_pressed wd = false →
  script w pdf_pages docx_text responses_create wd fs =
    match resume_file wd with
    | None => ([st_info (py "Please upload a resume to continue.")], Stopped, fs)
    | Some (name, file_bytes) =>
        if bool_decide (strip (job_description_area wd) = []) then
          ([st_warning (py "Please provide a job description or a valid URL.")],
           Stopped, fs)
        else
          match extract_resume_text pdf_pages docx_text name file_bytes fs with
          | (Raised e, fs') => ([], Crashed e, fs')
          | (Returned resume_text, fs') =>
              ((optimize responses_create resume_text (job_description_area wd)).1,
               (optimize responses_create resume_text (job_description_area wd)).2, fs')
          end
    end.
Proof.
  intros Hpressed. unfold script, fetch_button_handler. rewrite Hpressed. cbn [andb].
  rewrite bool_decide_eq_false_2 by (by intros ?%elem_of_nil).
  destruct (resume_file wd) as [[name file_bytes]|]; [|done].
  case_bool_decide; [done|].
  destruct (extract_resume_text _ _ _ _ _) as [[resume_text|e] fs']; [|done].
  by destruct (optimize _ _ _).
Qed.

(** A run, by what the fetch button did: it ended the run in a rerun, or it
    showed nothing or one error and the run went on as without it. *)
Lemma script_after_fetch_button (wd : widgets) (fs : filesystem) :
  let run := script w pdf_pages docx_text responses_create in
  (∃ text, run wd fs = ([ui (st_success (py "Fetched job description successfully."));
                         ui st_rerun], Rerun, fs)
         ∧ fetch_pressed wd = true
         ∧ fetch_try w (job_url_input wd) = Returned text
         ∧ startswith (py "Error") text = false)
  ∨ (∃ shown, run wd fs = (shown ++ (run (without_fetch wd) fs).1.1,
                           (run (without_fetch wd) fs).1.2,
                           (run (without_fetch wd) fs).2)
            ∧ (shown = [] ∨ ∃ text, shown = [ui (st_error text)])).
Proof.
  cbv zeta.
  destruct (fetch_button_handler_cases (fetch_pressed wd) (job_url_input wd)
              (job_description_area wd))
    as [Hh | [[text Hh] | (text & Hh & Hpressed & _ & Hfetch & Hprefix)]].
  - right. exists []. split; [|by left].
    rewrite (script_not_pressed (without_fetch wd)) by done.
    unfold script. rewrite Hh. cbn [fmap list_fmap app].
    rewrite bool_decide_eq_false_2 by (by intros ?%elem_of_nil).
    cbn [without_fetch resume_file job_description_area].
    destruct (resume_file wd) as [[name file_bytes]|]; [|done].
    case_bool_decide; [done|].
    destruct (extract_resume_text _ _ _ _ _) as [[resume_text|e] fs']; [|done].
    by destruct (optimize _ _ _).
  - right. exists [ui (st_error text)]. split; [|right; eauto].
    rewrite (script_not_pressed (without_fetch wd)) by done.
    unfold script. rewrite Hh. cbn [fmap list_fmap app].
    rewrite bool_decide_eq_false_2
      by (intros [?|?%elem_of_nil]%elem_of_cons; done).
    cbn [without_fetch resume_file job_description_area].
    destruct (resume_file wd) as [[name file_bytes]|]; [|done].
    case_bool_decide; [done|].
    destruct (extract_resume_text _ _ _ _ _) as [[resume_text|e] fs']; [|done].
    by destruct (optimize _ _ _).
  - left. exists text. split; [|done]. unfold script. rewrite Hh.
    rewrite bool_decide_eq_true_2; [done|]. set_solver.
Qed.

(** X18: the fetched text never reaches the model in the run that fetched
    it.  A run started by the fetch button either ends at [st.rerun()] right
    after the success message, with no extraction and no model call, or shows
    at most one error and then goes on exactly as a run of the same widgets
    without the button: with the job description of the text area. *)
Theorem script_fetch_button (wd : widgets) (fs : filesystem) :
  let run := script w pdf_pages docx_text responses_create in
  (∃ text, run wd fs = ([ui (st_success (py "Fetched job description successfully."));
                         ui st_rerun], Rerun, fs)
         ∧ fetch_try w (job_url_input wd) = Returned text)
  ∨ (∃ shown, run wd fs = (shown ++ (run (without_fetch wd) fs).1.1,
                           (run (without_fetch wd) fs).1.2,
                           (run (without_fetch wd) fs).2)
            ∧ (shown = [] ∨ ∃ text, shown = [ui (st_error text)])).
Proof.
  cbv zeta. destruct (script_after_fetch_button wd fs)
    as [(text & Hrun & _ & Hfetch & _) | Hgoes_on]; [left; eauto | by right].
Qed.

(** X19: results are shown only for an uploaded file and a job description
    that is not blank.  In a run that reaches the display, a file was
    uploaded, the text area held more than whitespace, the extraction
    returned, and what is shown ends with what [optimize] shows for the
    extracted text and the job description of the text area. *)
Theorem script_rendered (wd : widgets) (fs fs' : filesystem) (shown : list script_event) :
  script w pdf_pages docx_text responses_create wd fs = (shown, Rendered, fs') →
  ∃ name file_bytes resume_text before,
    resume_file wd = Some (name, file_bytes)
    ∧ strip (job_description_area wd) ≠ []
    ∧ extract_resume_text pdf_pages docx_text name file_bytes fs
      = (Returned resume_text, fs')
    ∧ optimize responses_create resume_text (job_description_area wd)
      = ((optimize responses_create resume_text (job_description_area wd)).1, Rendered)
    ∧ shown = before
              ++ (optimize responses_create resume_text (job_description_area wd)).1.
Proof.
  intros Hrun.
  destruct (script_after_fetch_button wd fs)
    as [(text & Hrerun & _) | (before & Hgoes_on & _)]; [congruence|].
  rewrite Hrun in Hgoes_on.
  rewrite (script_not_pressed (without_fetch wd)) in Hgoes_on by done.
  cbn [without_fetch resume_file job_description_area] in Hgoes_on.
  destruct (resume_file wd) as [[name file_bytes]|]; [|simplify_eq/=].
  case_bool_decide as Hblank; [simplify_eq/=|].
  destruct (extract_resume_text _ _ _ _ _) as [[resume_text|e] fs1] eqn:Hextract;
    [|simplify_eq/=].
  cbn [fst snd] in Hgoes_on. injection Hgoes_on as Hshown Hend Hfs.
  exists name, file_bytes, resume_text, before.
  split; [done|]. split; [done|]. split; [by rewrite Hfs|]. split; [|done].
  destruct (optimize _ _ _) as [results e]. simpl in *. by rewrite Hend.
Qed.

(** X20: an upload that its library cannot open, with a job description in
    the text area that is not blank, never reaches the model: an empty file
    under a name in [.pdf], or a file shorter than a ZIP archive can be under
    a name in [.docx].  Unless the fetch button started the run and the fetch
    succeeded, so that the run ends at [st.rerun()], the run ends with an
    exception of the extraction and the files as they were, having shown at
    most the error of a failed fetch, and nothing when the button was not
    pressed. *)
Theorem script_unreadable_upload
    (wd : widgets) (fs : filesystem) (name : str) (file_bytes : bytes) :
  resume_file wd = Some (name, file_bytes) →
  strip (job_description_area wd) ≠ [] →
  (endswith (py ".pdf") name = true ∧ file_bytes = [])
  ∨ (endswith (py ".pdf") name = false ∧ endswith (py ".docx") name = true
     ∧ (length file_bytes < zip_min_size)%nat) →
  let run := script w pdf_pages docx_text responses_create in
  (fetch_pressed wd = true
   ∧ run wd fs = ([ui (st_success (py "Fetched job description successfully."));
                   ui st_rerun], Rerun, fs))
  ∨ (∃ e shown, run wd fs = (shown, Crashed e, fs)
              ∧ (shown = [] ∨ ∃ text, shown = [ui (st_error text)])
              ∧ (fetch_pressed wd = false → shown = [])).
Proof.
  intros Hfile Hjob Hbytes. cbv zeta.
  assert (Hcrash : ∀ wd', fetch_pressed wd' = false →
            resume_file wd' = Some (name, file_bytes) →
            strip (job_description_area wd') ≠ [] →
            ∃ e, script w pdf_pages docx_text responses_create wd' fs
                 = ([], Crashed e, fs)).
  { intros wd' Hpressed' Hfile' Hjob'.
    rewrite script_not_pressed, Hfile' by done.
    rewrite bool_decide_eq_false_2 by done. unfold extract_resume_text.
    destruct Hbytes as [[-> ->] | (-> & -> & Hshort)].
    - exists PDFSyntaxError. reflexivity.
    - exists BadZipFile. rewrite extract_text_from_docx_run.
      by rewrite (proj2 (Nat.ltb_lt _ _) Hshort). }
  destruct (fetch_pressed wd) eqn:Hpressed.
  - destruct (script_after_fetch_button wd fs)
      as [(text & Hrerun & _) | (shown & Hgoes_on & Hshown)]; [by left|].
    right. destruct (Hcrash (without_fetch wd)) as [e He]; [done..|].
    rewrite He in Hgoes_on. cbn [fst snd] in Hgoes_on. rewrite app_nil_r in Hgoes_on.
    exists e, shown. done.
  - right. destruct (Hcrash wd) as [e He]; [done..|].
    exists e, []. split; [done|]. split; [by left|done].
Qed.

End ScriptRuns.

(** An instance of X19: a text file, a pasted job description and the answer
    of the first example. *)
Lemma script_rendered_example :
  script web_404 no_pages no_text (answering_client c1_text) text_upload ∅
  = ((optimize (answering_client c1_text) (py "Data engineer, 5 years")
        (py "Python developer")).1, Rendered, ∅)
  ∧ ∃ name file_bytes resume_text before,
      resume_file text_upload = Some (name, file_bytes)
      ∧ strip (job_description_area text_upload) ≠ []
      ∧ extract_resume_text no_pages no_text name file_bytes ∅ = (Returned resume_text, ∅)
      ∧ optimize (answering_client c1_text) resume_text (job_description_area text_upload)
        = ((optimize (answering_client c1_text) resume_text
              (job_description_area text_upload)).1, Rendered)
      ∧ (optimize (answering_client c1_text) (py "Data engineer, 5 years")
           (py "Python developer")).1
        = before ++ (optimize (answering_client c1_text) resume_text
                       (job_description_area text_upload)).1.
Proof.
  assert (H : script web_404 no_pages no_text (answering_client c1_text) text_upload ∅
              = ((optimize (answering_client c1_text) (py "Data engineer, 5 years")
                    (py "Python developer")).1, Rendered, ∅))
    by (vm_compute; reflexivity).
  split; [exact H | exact (script_rendered _ _ _ _ _ _ _ _ H)].
Defined.

(** An instance of X20: an empty PDF, in a run that the fetch button started
    and whose fetch failed. *)
Lemma script_unreadable_upload_example :
  (fetch_pressed empty_pdf_fetching = true
   ∧ script web_404 no_pages no_text (answering_client c1_text) empty_pdf_fetching ∅
     = ([ui (st_success (py "Fetched job description successfully.")); ui st_rerun],
        Rerun, ∅))
  ∨ (∃ e shown,
       script web_404 no_pages no_text (answering_client c1_text) empty_pdf_fetching ∅
       = (shown, Crashed e, ∅)
       ∧ (shown = [] ∨ ∃ text, shown = [ui (st_error text)])
       ∧ (fetch_pressed empty_pdf_fetching = false → shown = [])).
Proof.
  apply (script_unreadable_upload web_404 no_pages no_text (answering_client c1_text)
           empty_pdf_fetching ∅ (py "cv.pdf") []); [done | done |].
  left. split; reflexivity.
Defined.

(** The two runs on an empty PDF: the button not pressed, and a fetch that
    fails. *)
Example script_empty_pdf_runs :
  script web_404 no_pages no_text (answering_client c1_text) empty_pdf_upload ∅
  = ([], Crashed PDFSyntaxError, ∅)
  ∧ script web_404 no_pages no_text (answering_client c1_text) empty_pdf_fetching ∅
    = ([ui (st_error (py "Error fetching URL: 404 Client Error: Not Found for url: "
                      ++ py "https://example.com/job"))],
       Crashed PDFSyntaxError, ∅).
Proof. vm_compute. done. Qed.
